(** * music_generator.music.score: positioned notes, measures, tracks, scores

    A shallow embedding of [score.py].  Python objects that are mutated
    or whose identity matters ([PositionedNote], [Measure]) live in a heap
    and are handled through references; methods are computations in a
    state-and-failure monad over that heap.  [Track] and [Score] carry no
    mutator that the properties below depend on through aliasing, so they
    are passed as values. *)

From Stdlib Require Import QArith.
From stdpp Require Import base option list gmap strings pretty.

Set Default Proof Using "Type".

(** ** Collaborators imported by [score.py] *)

(** The interface [score.py] uses from [music_generator.music.timing]
    ([Duration], [Tempo], [Signature]) together with Python's [float].
    Nothing is assumed about the operations: every statement over this
    class holds for whatever arithmetic the collaborator implements. *)
Class Timing := {
  Scalar : Type;                                   (* float *)
  Duration : Type;
  Tempo : Type;
  Signature : Type;
  one : Scalar;                                    (* the literal 1.0 *)
  Duration_zero : Duration;                        (* Duration(0) *)
  Duration_add : Duration -> Duration -> Duration; (* a + b, a += b *)
  Duration_rmul : Scalar -> Duration -> Duration;  (* k * d *)
  Duration_from_num_beats : Scalar -> Tempo -> Duration;
  Tempo_quarter_note : Tempo -> Duration;
  Signature_get_num_quarter_notes : Signature -> Scalar
}.

(** Modelled from the spec: [music_generator.music.notes.Note] is not among
    the sources; the spec describes it as an opaque, immutable pitch
    identity (name and octave), as in [Note('C', 3)]. *)
Record Note := mkNote { name : string; octave : Z }.

(** ** Objects and the heap *)

(** A reference is an index into the heap's store for its class. *)
Abbreviation ref := nat (only parsing).

Record PositionedNote `{Timing} := mkPositionedNote {
  note : Note;
  offset : Duration;
  duration : Duration;
  velocity : Scalar
}.

Record Measure `{Timing} := mkMeasure {
  tempo : Tempo;
  signature : Signature;
  notes : list ref            (* references to PositionedNote objects *)
}.

Record Heap `{Timing} := mkHeap {
  note_objs : list PositionedNote;
  measure_objs : list Measure
}.

Definition empty_heap `{Timing} : Heap :=
  {| note_objs := []; measure_objs := [] |}.

(** ** Computations over the heap *)

Definition Py `{Timing} (A : Type) : Type := Heap -> option (A * Heap).

Definition ret `{Timing} {A} (a : A) : Py A := fun h => Some (a, h).

Definition bind `{Timing} {A B} (c : Py A) (k : A -> Py B) : Py B :=
  fun h => match c h with
           | Some (a, h') => k a h'
           | None => None
           end.

Notation "'let*' x ':=' c 'in' k" := (bind c (fun x => k))
  (at level 10, x name, c at level 100, k at level 200).

Definition new_note `{Timing} (n : PositionedNote) : Py ref :=
  fun h => Some (length (note_objs h),
                 {| note_objs := note_objs h ++ [n];
                    measure_objs := measure_objs h |}).

Definition get_note `{Timing} (p : ref) : Py PositionedNote :=
  fun h => match note_objs h !! p with
           | Some n => Some (n, h)
           | None => None
           end.

Definition set_note `{Timing} (p : ref) (n : PositionedNote) : Py unit :=
  fun h => match note_objs h !! p with
           | Some _ => Some (tt, {| note_objs := <[p := n]> (note_objs h);
                                    measure_objs := measure_objs h |})
           | None => None
           end.

Definition new_measure `{Timing} (m : Measure) : Py ref :=
  fun h => Some (length (measure_objs h),
                 {| note_objs := note_objs h;
                    measure_objs := measure_objs h ++ [m] |}).

Definition get_measure `{Timing} (p : ref) : Py Measure :=
  fun h => match measure_objs h !! p with
           | Some m => Some (m, h)
           | None => None
           end.

Definition set_measure `{Timing} (p : ref) (m : Measure) : Py unit :=
  fun h => match measure_objs h !! p with
           | Some _ => Some (tt, {| note_objs := note_objs h;
                                    measure_objs := <[p := m]> (measure_objs h) |})
           | None => None
           end.

(** A list comprehension [[f x for x in xs]] with an effectful body. *)
Fixpoint comprehension `{Timing} {A B} (f : A -> Py B) (xs : list A) : Py (list B) :=
  match xs with
  | [] => ret []
  | x :: rest =>
      let* y := f x in
      let* ys := comprehension f rest in
      ret (y :: ys)
  end.

(** ** class PositionedNote *)

Module PositionedNote.
Section Methods.
Context `{Timing}.

Definition __init__ (note : Note) (offset duration : Duration)
    (velocity : Scalar) : Py ref :=
  new_note (mkPositionedNote _ note offset duration velocity).

(* self.offset += offset; return self *)
Definition add_offset (self : ref) (extra : Duration) : Py ref :=
  let* n := get_note self in
  let* _ := set_note self
    (mkPositionedNote _ (note n) (Duration_add (offset n) extra)
                      (duration n) (velocity n)) in
  ret self.

(* return self.offset + self.duration *)
Definition get_moment_release (self : ref) : Py Duration :=
  let* n := get_note self in
  ret (Duration_add (offset n) (duration n)).

(* return deepcopy(self) *)
Definition clone (self : ref) : Py ref :=
  let* n := get_note self in
  new_note n.

End Methods.
End PositionedNote.

(** ** class Measure *)

Module Measure.
Section Methods.
Context `{Timing}.

Definition __init__ (tempo : Tempo) (signature : Signature) : Py ref :=
  new_measure (mkMeasure _ tempo signature []).

Definition total_time (self : ref) : Py Duration :=
  let* m := get_measure self in
  ret (Duration_rmul (Signature_get_num_quarter_notes (signature m))
                     (Tempo_quarter_note (tempo m))).

(* [velocity = None] stands for the omitted argument (default 1.0). *)
Definition add_note (self : ref) (note : Note) (position duration : Scalar)
    (velocity : option Scalar) : Py ref :=
  let* m := get_measure self in
  let position := Duration_from_num_beats position (tempo m) in
  let duration := Duration_from_num_beats duration (tempo m) in
  let* p := PositionedNote.__init__ note position duration
              (default one velocity) in
  let* m := get_measure self in
  let* _ := set_measure self
              (mkMeasure _ (tempo m) (signature m) (notes m ++ [p])) in
  ret self.

(* [note.clone().add_offset(offset) for note in self.notes] *)
Definition generate_notes (self : ref) (offset : Duration) : Py (list ref) :=
  let* m := get_measure self in
  comprehension
    (fun note => let* c := PositionedNote.clone note in
                 PositionedNote.add_offset c offset)
    (notes m).

End Methods.
End Measure.

(** ** class Track *)

(** A track built from a list of measures, as [songs.py] builds it.  The
    constructor stores whatever iterable it is given; a one-shot iterator,
    which a single [generate_notes()] would consume, is not modelled. *)
Record Track := mkTrack { measures : list ref }.

Module Track.
Section Methods.
Context `{Timing}.

(* the body of [for measure in self.measures], with the loop variables
   [notes] and [offset] threaded through *)
Fixpoint generate_notes_loop (ms : list ref) (notes : list ref)
    (offset : Duration) : Py (list ref) :=
  match ms with
  | [] => ret notes
  | measure :: rest =>
      let* r := Measure.generate_notes measure offset in
      let notes := notes ++ r in
      let* t := Measure.total_time measure in
      let offset := Duration_add offset t in
      generate_notes_loop rest notes offset
  end.

Definition generate_notes (self : Track) : Py (list ref) :=
  generate_notes_loop (measures self) [] Duration_zero.

End Methods.
End Track.

(** ** class Score *)

Record Score := mkScore { tracks : gmap string Track }.

(** What [get_track] hands back: a stored track, or an [IndexError]
    instance (constructed and returned, not raised). *)
Inductive value :=
  | VTrack (t : Track)
  | VIndexError (msg : string).

Inductive outcome :=
  | Return (v : value)
  | RaiseKeyError (key : string).

Module Score.

Definition __init__ : Score := mkScore ∅.

Definition add_track (self : Score) (name : string) (track : Track) : Score :=
  mkScore (<[name := track]> (tracks self)).

Definition get_track (self : Score) (name : string) : outcome :=
  if bool_decide (name ∉ dom (tracks self))
  then Return (VIndexError (name +:+ " not found in tracks"))
  else match tracks self !! name with
       | Some t => Return (VTrack t)
       | None => RaiseKeyError name
       end.

End Score.

(** ** A concrete timing module *)

Module SpecTiming.

(** Modelled from the spec: [timing.Tempo] is not among the sources; the
    spec describes it as a beats-per-minute descriptor. *)
Record Tempo := mkTempo { bpm : Q }.

(** Modelled from the spec: [timing.Signature] is not among the sources;
    the spec describes it as a (numerator, denominator) pair that is not
    validated. *)
Record Signature := mkSignature { numerator : Q; denominator : Q }.

(** Modelled from the spec: [timing.Duration] is not among the sources;
    the spec describes it as a single scalar with addition and scalar
    multiplication.  Exact rationals kept in lowest terms stand for it,
    so that equal quantities are equal terms. *)
Definition Duration := Q.

(** Modelled from the spec: [Duration.__add__] of the absent timing
    module, addition of the underlying scalars. *)
Definition add (a b : Duration) : Duration := Qred (a + b).

(** Modelled from the spec: [Duration.__rmul__] of the absent timing
    module, scalar multiplication. *)
Definition rmul (k : Q) (d : Duration) : Duration := Qred (k * d).

(** Modelled from the spec: [Tempo.quarter_note] of the absent timing
    module, [60 / bpm]. *)
Definition quarter_note (t : Tempo) : Duration := Qred (60 / bpm t).

(** Modelled from the spec: [Signature.get_num_quarter_notes] of the
    absent timing module, [numerator * (4 / denominator)]. *)
Definition get_num_quarter_notes (s : Signature) : Q :=
  Qred (numerator s * (4 / denominator s)).

(** Modelled from the spec: [Duration.from_num_beats] of the absent
    timing module, [beats * tempo.quarter_note()]. *)
Definition from_num_beats (beats : Q) (t : Tempo) : Duration :=
  Qred (beats * quarter_note t).

(** Modelled from the spec: the absent timing module as a whole, with
    [Duration(0)] the zero quantity and [1.0] the unit scalar. *)
#[global] Instance timing : Timing :=
  Build_Timing Q Duration Tempo Signature 1%Q 0%Q
               add rmul from_num_beats quarter_note get_num_quarter_notes.

End SpecTiming.

(** ** Vocabulary of the statements *)

(** The object [n] after [n.offset += extra]. *)
Definition shifted `{Timing} (extra : Duration) (n : PositionedNote) : PositionedNote :=
  mkPositionedNote _ (note n) (Duration_add (offset n) extra)
                   (duration n) (velocity n).

(** [stored h ps ns]: the references [ps] point, in this order, to the
    objects [ns] of heap [h]. *)
Definition stored `{Timing} (h : Heap) (ps : list ref) (ns : list PositionedNote) : Prop :=
  Forall2 (fun p n => note_objs h !! p = Some n) ps ns.

(** A measure whose note list only holds live references. *)
Definition measure_ok `{Timing} (h : Heap) (m : Measure) : Prop :=
  Forall (fun p => p < length (note_objs h)) (notes m).

(** The measures of a track are live objects with live notes. *)
Definition track_ok `{Timing} (h : Heap) (ms : list ref) : Prop :=
  Forall (fun r => exists m, measure_objs h !! r = Some m /\ measure_ok h m) ms.

(** The value of [Measure.total_time()] for a measure object. *)
Definition total_time_of `{Timing} (m : Measure) : Duration :=
  Duration_rmul (Signature_get_num_quarter_notes (signature m))
                (Tempo_quarter_note (tempo m)).

(** Track realisation as the specification words it: one result per
    measure, each obtained at the running offset, which then advances by
    the measure's total time. *)
Fixpoint per_measure_results `{Timing} (ms : list ref) (running : Duration)
    : Py (list (list ref)) :=
  match ms with
  | [] => ret []
  | m :: rest =>
      let* r := Measure.generate_notes m running in
      let* t := Measure.total_time m in
      let* rs := per_measure_results rest (Duration_add running t) in
      ret (r :: rs)
  end.

(** One [add_note] call: note, position and duration in beats, and the
    velocity when it is passed. *)
Definition call `{Timing} : Type := (Note * Scalar * Scalar * option Scalar)%type.

(** The chain [m.add_note(...).add_note(...)...], as [songs.py] writes it. *)
Fixpoint add_notes `{Timing} (self : ref) (calls : list call) : Py ref :=
  match calls with
  | [] => ret self
  | (n, position, duration, velocity) :: rest =>
      let* self := Measure.add_note self n position duration velocity in
      add_notes self rest
  end.

(** The stored note an [add_note] call creates under tempo [tp]. *)
Definition placed `{Timing} (tp : Tempo) (c : call) : PositionedNote :=
  let '(n, position, duration, velocity) := c in
  mkPositionedNote _ n (Duration_from_num_beats position tp)
                   (Duration_from_num_beats duration tp)
                   (default one velocity).

(** ** Sample objects under the concrete timing module *)

(** A note C3 on beat 0, one beat long, at 120 bpm. *)
Definition c3_on_beat_0 : PositionedNote :=
  mkPositionedNote SpecTiming.timing (mkNote "C" 3) 0%Q (1 # 2)%Q 1%Q.

(** [Measure(Tempo(120), Signature(4, 4)).add_note(Note('C', 3), 0, 1)]. *)
Definition common_time_bar : Measure :=
  mkMeasure SpecTiming.timing (SpecTiming.mkTempo 120)
            (SpecTiming.mkSignature 4 4) [0].

Definition one_bar_heap : Heap :=
  mkHeap SpecTiming.timing [c3_on_beat_0] [common_time_bar].

(** The same construction under [Signature(0, 4)], through the code. *)
Definition empty_bar_track : Py (list ref) :=
  let* r := Measure.__init__ (SpecTiming.mkTempo 120)
                             (SpecTiming.mkSignature 0 4) in
  let* r := Measure.add_note r (mkNote "C" 3) 0%Q 1%Q None in
  Track.generate_notes (mkTrack [r; r]).

(** ** Display methods of [PositionedNote] and [Measure] *)

(** What [__repr__] and [str_summary] use from the collaborators: the
    text [str()] gives for a note, a duration, a tempo and a signature. *)
Class Display `{Timing} := {
  Note_str : Note -> string;
  Duration_str : Duration -> string;
  Tempo_str : Tempo -> string;
  Signature_str : Signature -> string
}.

(** The one-character string of a line feed. *)
Definition newline : string := String (Ascii.ascii_of_nat 10) EmptyString.

(* PositionedNote.__repr__:
   '{} at {} for {}'.format(self.note, self.offset, self.duration) *)
Definition PositionedNote_repr `{Display} (self : ref) : Py string :=
  let* n := get_note self in
  ret (Note_str (note n) +:+ " at " +:+ Duration_str (offset n)
       +:+ " for " +:+ Duration_str (duration n)).

(* the body of [for n in self.notes: result += f'\n{n}'] *)
Fixpoint str_summary_loop `{Display} (ns : list ref) (result : string)
    : Py string :=
  match ns with
  | [] => ret result
  | n :: rest =>
      let* text := PositionedNote_repr n in
      let result := result +:+ (newline +:+ text) in
      str_summary_loop rest result
  end.

(* Measure.str_summary *)
Definition Measure_str_summary `{Display} (self : ref) : Py string :=
  let* m := get_measure self in
  let result := Signature_str (signature m) +:+ ": (@"
                +:+ Tempo_str (tempo m) +:+ "):" in
  str_summary_loop (notes m) result.

(* Measure.__repr__:
   "{} at {} with {} notes".format(str(self.signature), self.tempo,
                                   len(self.notes)) *)
Definition Measure_repr `{Display} (self : ref) : Py string :=
  let* m := get_measure self in
  ret (Signature_str (signature m) +:+ " at " +:+ Tempo_str (tempo m)
       +:+ " with " +:+ pretty (length (notes m)) +:+ " notes").

(** The text of one stored note. *)
Definition repr_of `{Display} (n : PositionedNote) : string :=
  Note_str (note n) +:+ " at " +:+ Duration_str (offset n)
  +:+ " for " +:+ Duration_str (duration n).

(** The lines of a summary, one per note, each opened by a line feed. *)
Fixpoint note_lines `{Display} (ns : list PositionedNote) : string :=
  match ns with
  | [] => EmptyString
  | n :: rest => (newline +:+ repr_of n) +:+ note_lines rest
  end.

(** ** The timeline a track denotes *)

(** The objects a measure's note list points to. *)
Definition notes_of `{Timing} (h : Heap) (m : Measure) : list PositionedNote :=
  omap (fun p => note_objs h !! p) (notes m).

(** The events of the measures [ms], read off heap [h] without running
    anything: each measure's notes shifted by the sum of the total times
    of the measures before it, on top of [running]. *)
Fixpoint timeline `{Timing} (h : Heap) (ms : list ref) (running : Duration)
    : list PositionedNote :=
  match ms with
  | [] => []
  | r :: rest =>
      match measure_objs h !! r with
      | Some m => map (shifted running) (notes_of h m)
                  ++ timeline h rest (Duration_add running (total_time_of m))
      | None => []
      end
  end.

(** How many notes the measures [ms] hold, repeats counted each time. *)
Fixpoint note_count `{Timing} (h : Heap) (ms : list ref) : nat :=
  match ms with
  | [] => 0
  | r :: rest =>
      match measure_objs h !! r with
      | Some m => length (notes m) + note_count h rest
      | None => 0
      end
  end.

(** Every reference held in some measure's note list. *)
Definition all_stored `{Timing} (h : Heap) : list ref :=
  concat (map notes (measure_objs h)).

(** No note object is held twice, neither within a measure nor by two
    measures, and every held reference is live. *)
Definition notes_unshared `{Timing} (h : Heap) : Prop :=
  NoDup (all_stored h)
  /\ Forall (fun p => p < length (note_objs h)) (all_stored h).

(** ** [songs.py] *)

(* def vader_jacob() *)
Definition vader_jacob : Py Track :=
  let* theme1 := Measure.__init__ (SpecTiming.mkTempo 120)
                                  (SpecTiming.mkSignature 4 4) in
  let* theme1 := Measure.add_note theme1 (mkNote "C" 3) 0%Q 1%Q None in
  let* theme1 := Measure.add_note theme1 (mkNote "D" 3) 1%Q 1%Q None in
  let* theme1 := Measure.add_note theme1 (mkNote "E" 3) 2%Q 1%Q None in
  let* theme1 := Measure.add_note theme1 (mkNote "C" 3) 3%Q 1%Q None in
  let* theme2 := Measure.__init__ (SpecTiming.mkTempo 120)
                                  (SpecTiming.mkSignature 4 4) in
  let* theme2 := Measure.add_note theme2 (mkNote "E" 3) 0%Q 1%Q None in
  let* theme2 := Measure.add_note theme2 (mkNote "F" 3) 1%Q 1%Q None in
  let* theme2 := Measure.add_note theme2 (mkNote "G" 3) 2%Q 2%Q None in
  let* theme3 := Measure.__init__ (SpecTiming.mkTempo 120)
                                  (SpecTiming.mkSignature 4 4) in
  let* theme3 := Measure.add_note theme3 (mkNote "G" 3) 0%Q (1 # 2)%Q None in
  let* theme3 := Measure.add_note theme3 (mkNote "A" 3) (1 # 2)%Q (1 # 2)%Q None in
  let* theme3 := Measure.add_note theme3 (mkNote "G" 3) 1%Q (1 # 2)%Q None in
  let* theme3 := Measure.add_note theme3 (mkNote "F" 3) (3 # 2)%Q (1 # 2)%Q None in
  let* theme3 := Measure.add_note theme3 (mkNote "E" 3) 2%Q 1%Q None in
  let* theme3 := Measure.add_note theme3 (mkNote "C" 3) 3%Q 1%Q None in
  let* theme4 := Measure.__init__ (SpecTiming.mkTempo 120)
                                  (SpecTiming.mkSignature 4 4) in
  let* theme4 := Measure.add_note theme4 (mkNote "C" 3) 0%Q 1%Q None in
  let* theme4 := Measure.add_note theme4 (mkNote "G" 2) 1%Q 1%Q None in
  let* theme4 := Measure.add_note theme4 (mkNote "C" 3) 2%Q 2%Q None in
  let track := mkTrack (replicate 2 theme1 ++ replicate 2 theme2
                        ++ replicate 2 theme3 ++ replicate 2 theme4) in
  ret track.

(** The [add_note] chains of the four themes of [vader_jacob]. *)
Definition theme1_calls : list call :=
  [ (mkNote "C" 3, 0%Q, 1%Q, None); (mkNote "D" 3, 1%Q, 1%Q, None);
    (mkNote "E" 3, 2%Q, 1%Q, None); (mkNote "C" 3, 3%Q, 1%Q, None) ].

Definition theme2_calls : list call :=
  [ (mkNote "E" 3, 0%Q, 1%Q, None); (mkNote "F" 3, 1%Q, 1%Q, None);
    (mkNote "G" 3, 2%Q, 2%Q, None) ].

Definition theme3_calls : list call :=
  [ (mkNote "G" 3, 0%Q, (1 # 2)%Q, None);
    (mkNote "A" 3, (1 # 2)%Q, (1 # 2)%Q, None);
    (mkNote "G" 3, 1%Q, (1 # 2)%Q, None);
    (mkNote "F" 3, (3 # 2)%Q, (1 # 2)%Q, None);
    (mkNote "E" 3, 2%Q, 1%Q, None); (mkNote "C" 3, 3%Q, 1%Q, None) ].

Definition theme4_calls : list call :=
  [ (mkNote "C" 3, 0%Q, 1%Q, None); (mkNote "G" 2, 1%Q, 1%Q, None);
    (mkNote "C" 3, 2%Q, 2%Q, None) ].

(** The note objects a theme's chain stores, at 120 bpm. *)
Definition theme_notes (calls : list call) : list PositionedNote :=
  map (placed (SpecTiming.mkTempo 120)) calls.

(** A 4/4 measure at 120 bpm holding [k] notes allocated from [b] on. *)
Definition theme_measure (b k : nat) : Measure :=
  mkMeasure SpecTiming.timing (SpecTiming.mkTempo 120)
            (SpecTiming.mkSignature 4 4) (seq b k).

(** [gapless start events stop]: the first event begins at [start], every
    event begins at the moment of release ([offset + duration]) of the one
    before it, and the last is released at [stop]. *)
Fixpoint gapless (start : Q) (events : list PositionedNote) (stop : Q) : Prop :=
  match events with
  | [] => start = stop
  | e :: rest =>
      offset e = start
      /\ gapless (SpecTiming.add (offset e) (duration e)) rest stop
  end.

(** A display for the concrete timing module.  The collaborators' own
    [__str__] methods are not among the sources; this one prints a note as
    its name and octave, a quantity as a fraction, a tempo as its bpm and a
    signature as [n/d]. *)
Definition fraction (q : Q) : string :=
  pretty (Qnum q) +:+ "/" +:+ pretty (Zpos (Qden q)).

#[global] Instance sample_display : Display := {|
  Note_str := fun n => name n +:+ pretty (octave n);
  Duration_str := fraction;
  Tempo_str := fun t => fraction (SpecTiming.bpm t);
  Signature_str := fun s => fraction (SpecTiming.numerator s) +:+ " over "
                            +:+ fraction (SpecTiming.denominator s)
|}.

(** ** Running the methods *)

Section Runs.
Context `{Timing}.

Implicit Types (h : Heap) (p q : ref) (n : PositionedNote) (m : Measure).

Lemma stored_length h ps ns : stored h ps ns -> length ps = length ns.
Proof. apply Forall2_length. Qed.

Lemma stored_extend h ps ns ext ms :
  stored h ps ns ->
  stored (mkHeap _ (note_objs h ++ ext) ms) ps ns.
Proof.
  unfold stored. intros Hs.
  induction Hs as [|p n ps ns Hp _ IH]; constructor; [|exact IH].
  simpl. by apply lookup_app_l_Some.
Qed.

Lemma stored_fresh l ns rest ms :
  stored (mkHeap _ (l ++ ns ++ rest) ms) (seq (length l) (length ns)) ns.
Proof.
  unfold stored. revert l.
  induction ns as [|n ns IH]; intros l; simpl; constructor.
  - simpl. by apply list_lookup_middle.
  - specialize (IH (l ++ [n])).
    rewrite length_app, <- app_assoc in IH. simpl in IH.
    by rewrite Nat.add_1_r in IH.
Qed.

Lemma measure_ok_stored h m : measure_ok h m -> exists ns, stored h (notes m) ns.
Proof.
  unfold measure_ok, stored. induction 1 as [|p ps Hp _ [ns IH]].
  - exists []. constructor.
  - apply lookup_lt_is_Some_2 in Hp as [n Hn].
    exists (n :: ns). by constructor.
Qed.

Lemma stored_measure_ok h m ns : stored h (notes m) ns -> measure_ok h m.
Proof.
  unfold measure_ok, stored. induction 1 as [|p n ps ns Hp _ IH]; constructor.
  - by eapply lookup_lt_Some.
  - exact IH.
Qed.

Lemma measure_ok_extend h m ext ms :
  measure_ok h m -> measure_ok (mkHeap _ (note_objs h ++ ext) ms) m.
Proof.
  unfold measure_ok. intros Hm.
  eapply Forall_impl; [exact Hm|]. intros p Hp. simpl in *.
  rewrite length_app. lia.
Qed.

Lemma track_ok_extend h ms ext :
  track_ok h ms ->
  track_ok (mkHeap _ (note_objs h ++ ext) (measure_objs h)) ms.
Proof.
  unfold track_ok. intros Ht.
  eapply Forall_impl; [exact Ht|]. intros r (m & Hm & Hok).
  exists m. split; [exact Hm | by apply measure_ok_extend].
Qed.

(** [note.clone().add_offset(extra)] allocates one object, the shifted
    copy, and leaves every existing object alone. *)
Lemma clone_add_offset_run h p n extra :
  note_objs h !! p = Some n ->
  (let* c := PositionedNote.clone p in PositionedNote.add_offset c extra) h
  = Some (length (note_objs h),
          mkHeap _ (note_objs h ++ [shifted extra n]) (measure_objs h)).
Proof.
  intros Hp.
  unfold bind, PositionedNote.clone, PositionedNote.add_offset, bind,
    get_note, set_note, new_note, ret.
  rewrite Hp. simpl.
  assert (Hnew : (note_objs h ++ [n]) !! length (note_objs h) = Some n)
    by (by apply list_lookup_middle).
  rewrite Hnew. simpl. rewrite Hnew. f_equal. f_equal. f_equal.
  replace (length (note_objs h)) with (length (note_objs h) + 0) at 1 by lia.
  rewrite insert_app_r. reflexivity.
Qed.

Lemma comprehension_run extra ps : forall h ns,
  stored h ps ns ->
  comprehension
    (fun x => let* c := PositionedNote.clone x in
              PositionedNote.add_offset c extra) ps h
  = Some (seq (length (note_objs h)) (length ps),
          mkHeap _ (note_objs h ++ map (shifted extra) ns) (measure_objs h)).
Proof.
  induction ps as [|p ps IH]; intros h ns Hs.
  - apply Forall2_nil_inv_l in Hs as ->. simpl. unfold ret.
    rewrite app_nil_r. by destruct h.
  - apply Forall2_cons_inv_l in Hs as (n & ns' & Hp & Hs & ->).
    cbn [comprehension]. unfold bind at 1.
    rewrite (clone_add_offset_run h p n extra Hp).
    unfold bind at 1.
    rewrite (IH _ ns' (stored_extend h ps ns' [shifted extra n] _ Hs)).
    unfold ret. simpl. rewrite length_app, <- app_assoc. simpl.
    by rewrite Nat.add_1_r.
Qed.

Lemma generate_notes_run h r m ns extra :
  measure_objs h !! r = Some m ->
  stored h (notes m) ns ->
  Measure.generate_notes r extra h
  = Some (seq (length (note_objs h)) (length ns),
          mkHeap _ (note_objs h ++ map (shifted extra) ns) (measure_objs h)).
Proof.
  intros Hm Hs. unfold Measure.generate_notes, bind at 1, get_measure.
  rewrite Hm. rewrite (comprehension_run extra _ h ns Hs).
  by rewrite (stored_length _ _ _ Hs).
Qed.

Lemma total_time_run h r m :
  measure_objs h !! r = Some m ->
  Measure.total_time r h = Some (total_time_of m, h).
Proof.
  intros Hm. unfold Measure.total_time, bind, get_measure, ret.
  by rewrite Hm.
Qed.

Lemma fresh_lookup (l ns : list PositionedNote) extra i n :
  ns !! i = Some n ->
  (l ++ map (shifted extra) ns) !! (length l + i) = Some (shifted extra n).
Proof.
  intros Hi. rewrite lookup_app_r by lia.
  replace (length l + i - length l) with i by lia.
  change (map (shifted extra) ns) with (shifted extra <$> ns).
  by rewrite list_lookup_fmap, Hi.
Qed.

Lemma stored_lookup h ps ns i p n :
  stored h ps ns -> ps !! i = Some p -> note_objs h !! p = Some n ->
  ns !! i = Some n.
Proof.
  intros Hs Hi Hp.
  destruct (Forall2_lookup_l _ _ _ _ _ Hs Hi) as (n' & Hn' & Hp').
  congruence.
Qed.

Lemma add_note_run h r m (pitch : Note) (position duration : Scalar)
    (velocity : option Scalar) :
  measure_objs h !! r = Some m ->
  Measure.add_note r pitch position duration velocity h
  = Some (r, mkHeap _
               (note_objs h ++ [placed (tempo m) (pitch, position, duration, velocity)])
               (<[r := mkMeasure _ (tempo m) (signature m)
                                 (notes m ++ [length (note_objs h)])]>
                  (measure_objs h))).
Proof.
  intros Hm.
  unfold Measure.add_note, PositionedNote.__init__, bind, get_measure,
    set_measure, new_note, ret.
  rewrite Hm. simpl. rewrite Hm. simpl. rewrite Hm. reflexivity.
Qed.

(** The loop of [Track.generate_notes] accumulates what the direct
    recursion collects measure by measure. *)
Lemma loop_concat ms : forall acc running h,
  Track.generate_notes_loop ms acc running h
  = (let* rs := per_measure_results ms running in
     ret (acc ++ concat rs)) h.
Proof.
  induction ms as [|r ms IH]; intros acc running h.
  - simpl. unfold bind, ret. simpl. by rewrite app_nil_r.
  - cbn [Track.generate_notes_loop per_measure_results]. unfold bind.
    destruct (Measure.generate_notes r running h) as [[out h1]|]; [|done].
    destruct (Measure.total_time r h1) as [[t h2]|]; [|done].
    rewrite IH. unfold bind, ret.
    destruct (per_measure_results ms (Duration_add running t) h2)
      as [[rs h3]|]; [|done].
    simpl. by rewrite app_assoc.
Qed.

Lemma per_measure_results_total ms : forall running h,
  track_ok h ms ->
  exists rs h', per_measure_results ms running h = Some (rs, h')
    /\ measure_objs h' = measure_objs h
    /\ exists ext, note_objs h' = note_objs h ++ ext.
Proof.
  induction ms as [|r ms IH]; intros running h Hok.
  - exists [], h. repeat split. exists []. by rewrite app_nil_r.
  - apply Forall_cons in Hok as [(m & Hm & Hmok) Hrest].
    destruct (measure_ok_stored h m Hmok) as [ns Hns].
    cbn [per_measure_results]. unfold bind at 1.
    rewrite (generate_notes_run h r m ns running Hm Hns).
    unfold bind at 1.
    rewrite (total_time_run _ r m) by exact Hm.
    destruct (IH (Duration_add running (total_time_of m)) _
                (track_ok_extend h ms (map (shifted running) ns) Hrest))
      as (rs & h' & Hrun & Hmeas & ext & Hext).
    unfold bind, ret. rewrite Hrun.
    eexists _, h'. split; [reflexivity|]. split; [exact Hmeas|].
    simpl in Hext. rewrite <- app_assoc in Hext. eauto.
Qed.

End Runs.

(** ** Properties of [PositionedNote] *)

(** C8: [p.add_offset(extra)] on a live note [p] returns the reference [p]
    itself; afterwards the object at [p] has offset [offset + extra] and its
    note, duration and velocity are as before; no other note object and no
    measure object is touched. *)
Theorem add_offset_in_place `{Timing} (h : Heap) (p : ref)
    (n : PositionedNote) (extra : Duration) :
  note_objs h !! p = Some n ->
  exists h' n',
    PositionedNote.add_offset p extra h = Some (p, h')
    /\ note_objs h' !! p = Some n'
    /\ offset n' = Duration_add (offset n) extra
    /\ note n' = note n /\ duration n' = duration n /\ velocity n' = velocity n
    /\ (forall q, q <> p -> note_objs h' !! q = note_objs h !! q)
    /\ length (note_objs h') = length (note_objs h)
    /\ measure_objs h' = measure_objs h.
Proof.
  intros Hp.
  exists (mkHeap _ (<[p := shifted extra n]> (note_objs h)) (measure_objs h)),
         (shifted extra n).
  split.
  - unfold PositionedNote.add_offset, bind, get_note, set_note, ret.
    rewrite Hp. simpl. rewrite Hp. reflexivity.
  - simpl. split.
    + apply list_lookup_insert_eq. by eapply lookup_lt_Some.
    + repeat split; try reflexivity.
      * intros q Hq. by apply list_lookup_insert_ne.
      * apply length_insert.
Qed.

Lemma add_offset_in_place_witness :
  note_objs one_bar_heap !! 0 = Some c3_on_beat_0
  /\ exists h', PositionedNote.add_offset (H := SpecTiming.timing) 0 2%Q one_bar_heap = Some (0, h').
Proof.
  split; [reflexivity|].
  destruct (add_offset_in_place one_bar_heap 0 c3_on_beat_0 2%Q eq_refl)
    as (h' & n' & Hrun & _).
  exists h'. exact Hrun.
Defined.

(** ** Properties of [Measure] *)

(** C5: [total_time()] of a live measure returns
    [signature.get_num_quarter_notes() * tempo.quarter_note()] and leaves
    the heap as it was. *)
Theorem total_time_formula `{Timing} (h : Heap) (r : ref) (m : Measure) :
  measure_objs h !! r = Some m ->
  Measure.total_time r h
  = Some (Duration_rmul (Signature_get_num_quarter_notes (signature m))
                        (Tempo_quarter_note (tempo m)), h).
Proof. apply total_time_run. Qed.

Lemma total_time_formula_witness :
  measure_objs one_bar_heap !! 0 = Some common_time_bar
  /\ Measure.total_time (H := SpecTiming.timing) 0 one_bar_heap
     = Some (2%Q, one_bar_heap).
Proof.
  split; [reflexivity|].
  exact (total_time_formula one_bar_heap 0 common_time_bar eq_refl).
Defined.

(** C7: for every position and duration in beats, [add_note] on a live
    measure succeeds and returns the measure's own reference; it allocates
    exactly one note object, whose offset and duration are
    [Duration.from_num_beats] of the two beat counts under the measure's
    tempo, and appends its reference to the measure's note list; tempo,
    signature, the earlier notes and every other measure are unchanged. *)
Theorem add_note_appends `{Timing} (h : Heap) (r : ref) (m : Measure)
    (pitch : Note) (position_in_beats duration_in_beats : Scalar)
    (velocity : option Scalar) :
  measure_objs h !! r = Some m ->
  exists h',
    Measure.add_note r pitch position_in_beats duration_in_beats velocity h
    = Some (r, h')
    /\ note_objs h'
       = note_objs h ++
         [mkPositionedNote _ pitch
            (Duration_from_num_beats position_in_beats (tempo m))
            (Duration_from_num_beats duration_in_beats (tempo m))
            (default one velocity)]
    /\ measure_objs h' !! r
       = Some (mkMeasure _ (tempo m) (signature m)
                         (notes m ++ [length (note_objs h)]))
    /\ (forall r', r' <> r -> measure_objs h' !! r' = measure_objs h !! r')
    /\ length (measure_objs h') = length (measure_objs h).
Proof.
  intros Hm. eexists. split; [by apply add_note_run|]. simpl.
  split; [reflexivity|]. split; [|split].
  - apply list_lookup_insert_eq. by eapply lookup_lt_Some.
  - intros r' Hr'. by apply list_lookup_insert_ne.
  - apply length_insert.
Qed.

Lemma add_note_appends_witness :
  measure_objs one_bar_heap !! 0 = Some common_time_bar
  /\ exists h',
       Measure.add_note (H := SpecTiming.timing) 0 (mkNote "G" 3) 9%Q 1%Q None
                        one_bar_heap = Some (0, h')
       /\ length (note_objs h') = 2.
Proof.
  split; [reflexivity|].
  destruct (add_note_appends one_bar_heap 0 common_time_bar (mkNote "G" 3)
              9%Q 1%Q None eq_refl)
    as (h' & Hrun & Hnotes & _).
  exists h'. split; [exact Hrun|]. rewrite Hnotes. reflexivity.
Defined.

(** C10: [generate_notes(base_offset)] on a live measure with live notes
    returns as many references as the measure stores, and the i-th one
    points to an object with the note, duration and velocity of the i-th
    stored note and with offset [stored offset + base_offset]. *)
Theorem generate_notes_pointwise `{Timing} (h : Heap) (r : ref) (m : Measure)
    (base_offset : Duration) :
  measure_objs h !! r = Some m ->
  measure_ok h m ->
  exists out h',
    Measure.generate_notes r base_offset h = Some (out, h')
    /\ length out = length (notes m)
    /\ forall i p n,
         notes m !! i = Some p -> note_objs h !! p = Some n ->
         exists q n',
           out !! i = Some q /\ note_objs h' !! q = Some n'
           /\ note n' = note n /\ duration n' = duration n
           /\ velocity n' = velocity n
           /\ offset n' = Duration_add (offset n) base_offset.
Proof.
  intros Hm Hok. destruct (measure_ok_stored h m Hok) as [ns Hns].
  eexists _, _. split; [exact (generate_notes_run h r m ns base_offset Hm Hns)|].
  split; [by rewrite length_seq, (stored_length _ _ _ Hns)|].
  intros i p n Hi Hp.
  pose proof (stored_lookup h _ ns i p n Hns Hi Hp) as Hn.
  exists (length (note_objs h) + i), (shifted base_offset n).
  split.
  - apply lookup_seq_lt. by eapply lookup_lt_Some.
  - split; [simpl; by apply fresh_lookup|]. by repeat split.
Qed.

Lemma generate_notes_pointwise_witness :
  (measure_objs one_bar_heap !! 0 = Some common_time_bar
   /\ measure_ok one_bar_heap common_time_bar)
  /\ exists out h',
       Measure.generate_notes (H := SpecTiming.timing) 0 2%Q one_bar_heap = Some (out, h')
       /\ length out = 1.
Proof.
  assert (Hok : measure_ok one_bar_heap common_time_bar).
  { constructor; [simpl; lia | constructor]. }
  split; [split; [reflexivity | exact Hok]|].
  destruct (generate_notes_pointwise one_bar_heap 0 common_time_bar 2%Q
              eq_refl Hok) as (out & h' & Hrun & Hlen & _).
  exists out, h'. split; [exact Hrun | exact Hlen].
Defined.

(** Repeated realisation of one measure: every call allocates fresh copies
    and none of them disturbs what is already on the heap. *)
Lemma repeated_generate_notes_run `{Timing} (r : ref) (m : Measure)
    (ns : list PositionedNote) (offs : list Duration) : forall h : Heap,
  measure_objs h !! r = Some m ->
  stored h (notes m) ns ->
  exists outs h',
    comprehension (Measure.generate_notes r) offs h = Some (outs, h')
    /\ measure_objs h' = measure_objs h
    /\ (exists ext, note_objs h' = note_objs h ++ ext)
    /\ Forall2 (fun off out => stored h' out (map (shifted off) ns)) offs outs.
Proof.
  induction offs as [|off offs IH]; intros h Hm Hns.
  - exists [], h. repeat split; [|constructor]. exists []. by rewrite app_nil_r.
  - cbn [comprehension]. unfold bind at 1.
    rewrite (generate_notes_run h r m ns off Hm Hns).
    edestruct (IH (mkHeap _ (note_objs h ++ map (shifted off) ns) (measure_objs h)))
      as (outs & h' & Hrun & Hmeas & [ext Hext] & Hall);
      [exact Hm | by apply stored_extend |].
    unfold bind, ret. rewrite Hrun. simpl in Hmeas, Hext.
    eexists _, h'. split; [reflexivity|]. split; [exact Hmeas|].
    rewrite <- app_assoc in Hext. split; [by eexists|].
    constructor; [|exact Hall].
    destruct h' as [l' ms']. simpl in Hext. subst l'.
    pose proof (stored_fresh (note_objs h) (map (shifted off) ns) ext ms') as Hf.
    by rewrite length_map in Hf.
Qed.

(** C2: any sequence of [generate_notes] calls on a live measure succeeds
    and leaves the measure object and its stored notes (offsets included)
    exactly as they were: the heap only grows by the fresh copies.  The
    copies returned by each call carry the stored offsets plus that call's
    offset, whatever calls came before, so two calls with the same offset
    yield the same absolute offsets. *)
Theorem generate_notes_no_drift `{Timing} (h : Heap) (r : ref) (m : Measure)
    (ns : list PositionedNote) (offs : list Duration) :
  measure_objs h !! r = Some m ->
  stored h (notes m) ns ->
  exists outs h',
    comprehension (Measure.generate_notes r) offs h = Some (outs, h')
    /\ measure_objs h' !! r = Some m
    /\ stored h' (notes m) ns
    /\ (exists ext, note_objs h' = note_objs h ++ ext)
    /\ Forall2 (fun off out =>
                  exists copies, stored h' out copies
                    /\ map offset copies
                       = map (fun n => Duration_add (offset n) off) ns)
               offs outs.
Proof.
  intros Hm Hns.
  destruct (repeated_generate_notes_run r m ns offs h Hm Hns)
    as (outs & h' & Hrun & Hmeas & [ext Hext] & Hall).
  exists outs, h'. split; [exact Hrun|]. split; [by rewrite Hmeas|].
  split.
  { destruct h' as [l' ms']. simpl in Hext. subst l'.
    by apply stored_extend. }
  split; [by exists ext|].
  eapply Forall2_impl; [exact Hall|]. intros off out Hout.
  exists (map (shifted off) ns). split; [exact Hout|].
  rewrite map_map. reflexivity.
Qed.

Lemma generate_notes_no_drift_witness :
  (measure_objs one_bar_heap !! 0 = Some common_time_bar
   /\ stored one_bar_heap (notes common_time_bar) [c3_on_beat_0])
  /\ exists outs h',
       comprehension (Measure.generate_notes (H := SpecTiming.timing) 0)
                     [0%Q; 2%Q; 0%Q] one_bar_heap = Some (outs, h')
       /\ stored h' (notes common_time_bar) [c3_on_beat_0].
Proof.
  assert (Hns : stored one_bar_heap (notes common_time_bar) [c3_on_beat_0]).
  { constructor; [reflexivity | constructor]. }
  split; [split; [reflexivity | exact Hns]|].
  destruct (generate_notes_no_drift one_bar_heap 0 common_time_bar
              [c3_on_beat_0] [0%Q; 2%Q; 0%Q] eq_refl Hns)
    as (outs & h' & Hrun & _ & Hkept & _).
  exists outs, h'. split; [exact Hrun | exact Hkept].
Defined.

Lemma add_notes_run `{Timing} (calls : list call) : forall (h : Heap) r m,
  measure_objs h !! r = Some m ->
  add_notes r calls h
  = Some (r, mkHeap _
               (note_objs h ++ map (placed (tempo m)) calls)
               (<[r := mkMeasure _ (tempo m) (signature m)
                         (notes m ++ seq (length (note_objs h)) (length calls))]>
                  (measure_objs h))).
Proof.
  induction calls as [|c calls IH]; intros h r m Hm.
  - simpl. unfold ret. rewrite !app_nil_r.
    destruct m as [tp sg ps]. simpl.
    rewrite list_insert_id by exact Hm. by destruct h.
  - destruct c as [[[pitch position] dur] vel].
    cbn [add_notes]. unfold bind.
    rewrite (add_note_run h r m pitch position dur vel Hm).
    rewrite (IH _ r (mkMeasure _ (tempo m) (signature m)
                               (notes m ++ [length (note_objs h)]))).
    + simpl. rewrite list_insert_insert_eq, length_app, <- !app_assoc. simpl.
      by rewrite Nat.add_1_r.
    + simpl. apply list_lookup_insert_eq. by eapply lookup_lt_Some.
Qed.

(** C6: on a measure built by [Measure(tempo, signature)] followed by any
    chain of [add_note] calls, [generate_notes(offset)] succeeds and returns
    one event per call, in the order of the calls (whatever the positions
    passed): the k-th returned reference points to the note of the k-th
    call, shifted by [offset]. *)
Theorem generate_notes_insertion_order `{Timing} (h : Heap) (tp : Tempo)
    (sg : Signature) (calls : list call) (base_offset : Duration) :
  exists out h',
    (let* r := Measure.__init__ tp sg in
     let* r := add_notes r calls in
     Measure.generate_notes r base_offset) h = Some (out, h')
    /\ stored h' out (map (fun c => shifted base_offset (placed tp c)) calls).
Proof.
  unfold bind at 1, Measure.__init__, new_measure.
  unfold bind at 1.
  rewrite (add_notes_run calls _ (length (measure_objs h))
                         (mkMeasure _ tp sg []))
    by (simpl; by apply list_lookup_middle).
  simpl.
  erewrite (generate_notes_run _ _ _ (map (placed tp) calls)).
  - eexists _, _. split; [reflexivity|]. simpl.
    rewrite <- (map_map (placed tp) (shifted base_offset)).
    pose proof (stored_fresh (note_objs h ++ map (placed tp) calls)
                  (map (shifted base_offset) (map (placed tp) calls)) []) as Hf.
    rewrite app_nil_r, length_map in Hf. apply Hf.
  - simpl. apply list_lookup_insert_eq. rewrite length_app. simpl. lia.
  - simpl.
    pose proof (stored_fresh (note_objs h) (map (placed tp) calls) []) as Hf.
    rewrite app_nil_r, length_map in Hf. apply Hf.
Qed.

(** ** Properties of [Track] *)

(** C1: on a track whose measures are live, [Track.generate_notes()]
    succeeds, and its output is the concatenation, in stored order, of the
    per-measure results obtained with a running offset that starts at
    [Duration(0)] and advances by each measure's [total_time()]; both
    computations leave the same heap. *)
Theorem track_generate_notes_concatenates `{Timing} (t : Track) (h : Heap) :
  track_ok h (measures t) ->
  exists rs h',
    per_measure_results (measures t) Duration_zero h = Some (rs, h')
    /\ Track.generate_notes t h = Some (concat rs, h').
Proof.
  intros Hok.
  destruct (per_measure_results_total (measures t) Duration_zero h Hok)
    as (rs & h' & Hrun & _).
  exists rs, h'. split; [exact Hrun|].
  unfold Track.generate_notes. rewrite loop_concat.
  unfold bind, ret. by rewrite Hrun.
Qed.

Lemma track_generate_notes_concatenates_witness :
  track_ok one_bar_heap [0; 0]
  /\ exists rs h',
       Track.generate_notes (H := SpecTiming.timing) (mkTrack [0; 0]) one_bar_heap
       = Some (concat rs, h').
Proof.
  assert (Hok : track_ok one_bar_heap [0; 0]).
  { assert (Hm : exists m, measure_objs one_bar_heap !! 0 = Some m
                           /\ measure_ok one_bar_heap m).
    { exists common_time_bar. split; [reflexivity|].
      constructor; [simpl; lia | constructor]. }
    repeat constructor; exact Hm. }
  split; [exact Hok|].
  destruct (track_generate_notes_concatenates (mkTrack [0; 0]) one_bar_heap Hok)
    as (rs & h' & _ & Hrun).
  exists rs, h'. exact Hrun.
Defined.

(** C3, as the code has it: for every live measure [M], a track [[M, M]]
    succeeds and returns, for every stored note, two references that differ
    from each other and from the stored note, no reference occurring twice
    in the output; the stored note is unchanged; the first copy has offset
    [stored + Duration(0)] and the second
    [stored + (Duration(0) + M.total_time())].  Hence the two offsets are
    different exactly when these two sums are. *)
Theorem repeated_measure_independent `{Timing} (h : Heap) (r : ref) (m : Measure) :
  measure_objs h !! r = Some m ->
  measure_ok h m ->
  exists out h',
    Track.generate_notes (mkTrack [r; r]) h = Some (out, h')
    /\ NoDup out
    /\ length out = 2 * length (notes m)
    /\ forall i p n,
         notes m !! i = Some p -> note_objs h !! p = Some n ->
         exists q1 q2 n1 n2,
           out !! i = Some q1 /\ out !! (length (notes m) + i) = Some q2
           /\ q1 <> q2 /\ q1 <> p /\ q2 <> p
           /\ note_objs h' !! p = Some n
           /\ note_objs h' !! q1 = Some n1 /\ note_objs h' !! q2 = Some n2
           /\ n1 = shifted Duration_zero n
           /\ n2 = shifted (Duration_add Duration_zero (total_time_of m)) n
           /\ offset n1 = Duration_add (offset n) Duration_zero
           /\ offset n2
              = Duration_add (offset n)
                             (Duration_add Duration_zero (total_time_of m))
           /\ (offset n1 <> offset n2
               <-> Duration_add (offset n)
                                (Duration_add Duration_zero (total_time_of m))
                   <> Duration_add (offset n) Duration_zero).
Proof.
  intros Hm Hok. destruct (measure_ok_stored h m Hok) as [ns Hns].
  pose proof (stored_length _ _ _ Hns) as Hlen.
  eexists _, _. split.
  { unfold Track.generate_notes. cbn [measures Track.generate_notes_loop].
    unfold bind.
    rewrite (generate_notes_run h r m ns Duration_zero Hm Hns).
    rewrite (total_time_run _ r m) by exact Hm.
    rewrite (generate_notes_run _ r m ns) by
      first [exact Hm | by apply stored_extend].
    rewrite (total_time_run _ r m) by exact Hm.
    unfold ret. reflexivity. }
  cbn [note_objs measure_objs app].
  rewrite length_app, length_map, <- seq_app.
  split; [apply NoDup_seq|]. split; [rewrite length_seq; lia|].
  intros i p n Hi Hp.
  pose proof (stored_lookup h _ ns i p n Hns Hi Hp) as Hn.
  pose proof (lookup_lt_Some _ _ _ Hn) as Hlt.
  pose proof (lookup_lt_Some _ _ _ Hp) as Hpl.
  exists (length (note_objs h) + i), (length (note_objs h) + length ns + i),
         (shifted Duration_zero n),
         (shifted (Duration_add Duration_zero (total_time_of m)) n).
  split; [apply lookup_seq_lt; lia|].
  split; [rewrite lookup_seq_lt by lia; f_equal; lia|].
  split; [lia|]. split; [lia|]. split; [lia|].
  split; [by apply lookup_app_l_Some, lookup_app_l_Some|].
  split; [by apply lookup_app_l_Some, fresh_lookup|].
  split.
  { pose proof (fresh_lookup (note_objs h ++ map (shifted Duration_zero) ns) ns
                  (Duration_add Duration_zero (total_time_of m)) i n Hn) as Hf.
    by rewrite length_app, length_map in Hf. }
  split; [reflexivity|]. split; [reflexivity|].
  split; [reflexivity|]. split; [reflexivity|].
  simpl. split; intros Hne Heq; apply Hne; by symmetry.
Qed.

Lemma repeated_measure_independent_witness :
  (measure_objs one_bar_heap !! 0 = Some common_time_bar
   /\ measure_ok one_bar_heap common_time_bar)
  /\ exists out h',
       Track.generate_notes (H := SpecTiming.timing) (mkTrack [0; 0]) one_bar_heap
       = Some (out, h')
       /\ NoDup out /\ length out = 2.
Proof.
  assert (Hok : measure_ok one_bar_heap common_time_bar).
  { constructor; [simpl; lia | constructor]. }
  split; [split; [reflexivity | exact Hok]|].
  destruct (repeated_measure_independent one_bar_heap 0 common_time_bar
              eq_refl Hok) as (out & h' & Hrun & Hnd & Hlen & _).
  exists out, h'. split; [exact Hrun|]. split; [exact Hnd | exact Hlen].
Defined.

(** C3 as stated fails: with [Signature(0, 4)] the measure's total time is
    zero, and the two events of the one stored note share their offset. *)
Lemma repeated_measure_same_offset :
  exists h' n1 n2,
    empty_bar_track (empty_heap (H := SpecTiming.timing)) = Some ([1; 2], h')
    /\ note_objs h' !! 1 = Some n1
    /\ note_objs h' !! 2 = Some n2
    /\ offset n1 = offset n2.
Proof.
  eexists _, _, _. split; [vm_compute; reflexivity|].
  split; [reflexivity|]. split; reflexivity.
Qed.

(** ** Properties of [Score] *)

(** C4: [get_track(name)] on a name the score does not hold returns an
    [IndexError] value naming the key, which is not a track; on a name it
    holds it returns the stored track.  It never raises. *)
Theorem get_track_lookup (s : Score) (name : string) :
  (tracks s !! name = None ->
     Score.get_track s name
     = Return (VIndexError (name +:+ " not found in tracks"))
     /\ forall t, Score.get_track s name <> Return (VTrack t))
  /\ (forall t, tracks s !! name = Some t ->
        Score.get_track s name = Return (VTrack t)).
Proof.
  unfold Score.get_track. split.
  - intros Hnone.
    rewrite bool_decide_eq_true_2 by (by apply not_elem_of_dom).
    split; [reflexivity | discriminate].
  - intros t Hsome.
    rewrite bool_decide_eq_false_2.
    + by rewrite Hsome.
    + intros Hnot. apply Hnot, elem_of_dom. by exists t.
Qed.

Lemma get_track_lookup_witness :
  Score.get_track Score.__init__ "missing"
  = Return (VIndexError "missing not found in tracks")
  /\ Score.get_track (Score.add_track Score.__init__ "lead" (mkTrack [0; 0]))
                     "lead"
     = Return (VTrack (mkTrack [0; 0])).
Proof.
  split.
  - destruct (get_track_lookup Score.__init__ "missing") as [Habsent _].
    destruct (Habsent eq_refl) as [Herr _]. exact Herr.
  - destruct (get_track_lookup
                (Score.add_track Score.__init__ "lead" (mkTrack [0; 0])) "lead")
      as [_ Hpresent].
    apply Hpresent. reflexivity.
Defined.

(** C9: after [add_track(name, t)], [get_track(name)] returns [t], whatever
    the score held under [name] before. *)
Theorem get_track_after_add_track (s : Score) (name : string) (t : Track) :
  Score.get_track (Score.add_track s name t) name = Return (VTrack t).
Proof.
  unfold Score.get_track, Score.add_track. simpl.
  rewrite bool_decide_eq_false_2.
  - by rewrite lookup_insert_eq.
  - intros Hnot. apply Hnot, elem_of_dom. rewrite lookup_insert_eq. by eexists.
Qed.

(** ** Further properties of [PositionedNote] *)

(** X1: [clone()] of a live note returns a reference that was not live
    before, pointing to an object with the same four fields; the original
    is untouched.  A later [add_offset] on the clone changes the clone only:
    the original keeps its offset. *)
Theorem clone_is_independent `{Timing} (h : Heap) (p : ref)
    (n : PositionedNote) (extra : Duration) :
  note_objs h !! p = Some n ->
  exists q h1 h2,
    PositionedNote.clone p h = Some (q, h1)
    /\ q <> p /\ note_objs h !! q = None
    /\ note_objs h1 !! q = Some n /\ note_objs h1 !! p = Some n
    /\ measure_objs h1 = measure_objs h
    /\ PositionedNote.add_offset q extra h1 = Some (q, h2)
    /\ note_objs h2 !! p = Some n
    /\ note_objs h2 !! q = Some (shifted extra n)
    /\ measure_objs h2 = measure_objs h.
Proof.
  intros Hp. pose proof (lookup_lt_Some _ _ _ Hp) as Hlt.
  assert (Hnew : (note_objs h ++ [n]) !! length (note_objs h) = Some n)
    by (by apply list_lookup_middle).
  exists (length (note_objs h)),
         (mkHeap _ (note_objs h ++ [n]) (measure_objs h)),
         (mkHeap _ (note_objs h ++ [shifted extra n]) (measure_objs h)).
  split.
  { unfold PositionedNote.clone, bind, get_note, new_note. by rewrite Hp. }
  split; [lia|]. split; [by apply lookup_ge_None_2|].
  split; [exact Hnew|]. split; [by apply lookup_app_l_Some|].
  split; [reflexivity|]. split.
  { unfold PositionedNote.add_offset, bind, get_note, set_note, ret. simpl.
    rewrite Hnew. simpl. rewrite Hnew. do 3 f_equal.
    replace (length (note_objs h)) with (length (note_objs h) + 0) at 1 by lia.
    by rewrite insert_app_r. }
  split; [by apply lookup_app_l_Some|].
  split; [by apply list_lookup_middle | reflexivity].
Qed.

Lemma clone_is_independent_witness :
  note_objs one_bar_heap !! 0 = Some c3_on_beat_0
  /\ exists q h1,
       PositionedNote.clone (H := SpecTiming.timing) 0 one_bar_heap = Some (q, h1)
       /\ q <> 0.
Proof.
  split; [reflexivity|].
  destruct (clone_is_independent one_bar_heap 0 c3_on_beat_0 2%Q eq_refl)
    as (q & h1 & h2 & Hrun & Hne & _).
  exists q, h1. split; [exact Hrun | exact Hne].
Defined.

(** X2: [get_moment_release()] of a live note returns
    [offset + duration] and leaves the heap as it was; called after
    [add_offset(extra)] it returns [(offset + extra) + duration]. *)
Theorem moment_release_follows_offset `{Timing} (h : Heap) (p : ref)
    (n : PositionedNote) (extra : Duration) :
  note_objs h !! p = Some n ->
  PositionedNote.get_moment_release p h
  = Some (Duration_add (offset n) (duration n), h)
  /\ exists h',
       (let* q := PositionedNote.add_offset p extra in
        PositionedNote.get_moment_release q) h
       = Some (Duration_add (Duration_add (offset n) extra) (duration n), h').
Proof.
  intros Hp. pose proof (lookup_lt_Some _ _ _ Hp) as Hlt. split.
  - unfold PositionedNote.get_moment_release, bind, get_note, ret.
    by rewrite Hp.
  - eexists.
    unfold PositionedNote.get_moment_release, PositionedNote.add_offset,
      bind, get_note, set_note, ret.
    rewrite Hp. simpl. rewrite Hp. simpl.
    rewrite list_lookup_insert_eq by exact Hlt. reflexivity.
Qed.

Lemma moment_release_follows_offset_witness :
  note_objs one_bar_heap !! 0 = Some c3_on_beat_0
  /\ PositionedNote.get_moment_release (H := SpecTiming.timing) 0 one_bar_heap
     = Some ((1 # 2)%Q, one_bar_heap).
Proof.
  split; [reflexivity|].
  destruct (moment_release_follows_offset one_bar_heap 0 c3_on_beat_0 2%Q
              eq_refl) as [Hnow _].
  exact Hnow.
Defined.

(** X3: [add_offset] accumulates on the object itself: the chain
    [p.add_offset(e1).add_offset(e2)] returns [p] and leaves its offset at
    [(offset + e1) + e2], its other fields and every other object as they
    were. *)
Theorem add_offset_accumulates `{Timing} (h : Heap) (p : ref)
    (n : PositionedNote) (e1 e2 : Duration) :
  note_objs h !! p = Some n ->
  exists h' n',
    (let* q := PositionedNote.add_offset p e1 in
     PositionedNote.add_offset q e2) h = Some (p, h')
    /\ note_objs h' !! p = Some n'
    /\ offset n' = Duration_add (Duration_add (offset n) e1) e2
    /\ note n' = note n /\ duration n' = duration n /\ velocity n' = velocity n
    /\ (forall q, q <> p -> note_objs h' !! q = note_objs h !! q)
    /\ measure_objs h' = measure_objs h.
Proof.
  intros Hp. pose proof (lookup_lt_Some _ _ _ Hp) as Hlt.
  exists (mkHeap _ (<[p := shifted e2 (shifted e1 n)]> (note_objs h))
                 (measure_objs h)),
         (shifted e2 (shifted e1 n)).
  split.
  { unfold PositionedNote.add_offset, bind, get_note, set_note, ret.
    rewrite Hp. simpl. rewrite Hp. simpl.
    rewrite list_lookup_insert_eq by exact Hlt. simpl.
    rewrite list_lookup_insert_eq by exact Hlt.
    by rewrite list_insert_insert_eq. }
  simpl. split; [by apply list_lookup_insert_eq|].
  repeat split. intros q Hq. by apply list_lookup_insert_ne.
Qed.

Lemma add_offset_accumulates_witness :
  note_objs one_bar_heap !! 0 = Some c3_on_beat_0
  /\ exists h',
       (let* q := PositionedNote.add_offset (H := SpecTiming.timing) 0 2%Q in
        PositionedNote.add_offset q 2%Q) one_bar_heap = Some (0, h').
Proof.
  split; [reflexivity|].
  destruct (add_offset_accumulates one_bar_heap 0 c3_on_beat_0 2%Q 2%Q eq_refl)
    as (h' & n' & Hrun & _).
  exists h'. exact Hrun.
Defined.

(** ** Further properties of [Score] *)

(** X4: [get_track] never raises: the subscript [self.tracks[name]] is only
    reached for a key the dictionary holds. *)
Theorem get_track_never_raises (s : Score) (name key : string) :
  Score.get_track s name <> RaiseKeyError key.
Proof.
  unfold Score.get_track. case_bool_decide as Hdom; [discriminate|].
  destruct (tracks s !! name) as [t|] eqn:Hl; [discriminate|].
  apply elem_of_dom in Hdom as [t Ht]. congruence.
Qed.

(** X5: [add_track(name, t)] changes the answer of [get_track] for [name]
    only: a lookup of any other name gives what it gave before. *)
Theorem add_track_other_name (s : Score) (name other : string) (t : Track) :
  name <> other ->
  Score.get_track (Score.add_track s name t) other = Score.get_track s other.
Proof.
  intros Hne. unfold Score.get_track, Score.add_track. simpl.
  rewrite lookup_insert_ne by exact Hne.
  assert (Hdom : other ∉ dom (<[name := t]> (tracks s)) <-> other ∉ dom (tracks s)).
  { rewrite !not_elem_of_dom. by rewrite lookup_insert_ne. }
  destruct (decide (other ∉ dom (tracks s))) as [Hn|Hn].
  - rewrite !bool_decide_eq_true_2; [reflexivity | exact Hn | by apply Hdom].
  - rewrite !bool_decide_eq_false_2; [reflexivity | exact Hn |].
    intros Hx. by apply Hn, Hdom.
Qed.

Lemma add_track_other_name_witness :
  "lead"%string <> "bass"%string
  /\ Score.get_track (Score.add_track Score.__init__ "lead" (mkTrack [0])) "bass"
     = Return (VIndexError "bass not found in tracks").
Proof.
  assert (Hne : "lead"%string <> "bass"%string) by discriminate.
  split; [exact Hne|].
  rewrite (add_track_other_name Score.__init__ "lead" "bass" (mkTrack [0]) Hne).
  reflexivity.
Defined.

(** X6: a second [add_track] under the same name replaces the first for
    every later lookup: the score answers as if only the second call had
    been made. *)
Theorem add_track_last_wins (s : Score) (name other : string) (t1 t2 : Track) :
  Score.get_track (Score.add_track (Score.add_track s name t1) name t2) other
  = Score.get_track (Score.add_track s name t2) other.
Proof.
  unfold Score.add_track. simpl. by rewrite insert_insert_eq.
Qed.

(** ** Further properties of [Track] *)

Lemma notes_of_stored `{Timing} (h : Heap) (m : Measure)
    (ns : list PositionedNote) :
  stored h (notes m) ns -> notes_of h m = ns.
Proof.
  unfold notes_of, stored. induction 1 as [|p n ps ns Hp _ IH]; [done|].
  cbn. rewrite Hp. simpl. f_equal. exact IH.
Qed.

Lemma notes_of_extend `{Timing} (h : Heap) (m : Measure) ext ms :
  measure_ok h m ->
  notes_of (mkHeap _ (note_objs h ++ ext) ms) m = notes_of h m.
Proof.
  intros Hok. destruct (measure_ok_stored h m Hok) as [ns Hns].
  rewrite (notes_of_stored h m ns Hns).
  apply notes_of_stored. by apply stored_extend.
Qed.

Lemma notes_of_length `{Timing} (h : Heap) (m : Measure) :
  measure_ok h m -> length (notes_of h m) = length (notes m).
Proof.
  intros Hok. destruct (measure_ok_stored h m Hok) as [ns Hns].
  rewrite (notes_of_stored h m ns Hns). symmetry. by eapply stored_length.
Qed.

Lemma timeline_extend `{Timing} (h : Heap) ext (ms : list ref) :
  forall running,
  track_ok h ms ->
  timeline (mkHeap _ (note_objs h ++ ext) (measure_objs h)) ms running
  = timeline h ms running.
Proof.
  induction ms as [|r ms IH]; intros running Hok; [done|].
  apply Forall_cons in Hok as [(m & Hm & Hmok) Hrest].
  cbn [timeline measure_objs]. rewrite Hm.
  rewrite (notes_of_extend h m ext _ Hmok). f_equal.
  apply IH, Hrest.
Qed.

Lemma timeline_length `{Timing} (h : Heap) (ms : list ref) :
  forall running,
  track_ok h ms -> length (timeline h ms running) = note_count h ms.
Proof.
  induction ms as [|r ms IH]; intros running Hok; [done|].
  apply Forall_cons in Hok as [(m & Hm & Hmok) Hrest].
  cbn [timeline note_count]. rewrite Hm.
  rewrite length_app, length_map, (notes_of_length h m Hmok).
  f_equal. apply IH, Hrest.
Qed.

(** Running the per-measure realisation appends the timeline to the note
    store and hands out the new references in order. *)
Lemma per_measure_results_run `{Timing} (ms : list ref) :
  forall running (h : Heap),
  track_ok h ms ->
  exists rs,
    per_measure_results ms running h
    = Some (rs, mkHeap _ (note_objs h ++ timeline h ms running) (measure_objs h))
    /\ concat rs
       = seq (length (note_objs h)) (length (timeline h ms running)).
Proof.
  induction ms as [|r ms IH]; intros running h Hok.
  - exists []. simpl. unfold ret. rewrite app_nil_r. by destruct h.
  - apply Forall_cons in Hok as [(m & Hm & Hmok) Hrest].
    destruct (measure_ok_stored h m Hmok) as [ns Hns].
    destruct (IH (Duration_add running (total_time_of m)) _
                (track_ok_extend h ms (map (shifted running) ns) Hrest))
      as (rs & Hrun & Hcat).
    rewrite timeline_extend in Hrun, Hcat by exact Hrest.
    cbn [note_objs measure_objs] in Hrun, Hcat.
    exists (seq (length (note_objs h)) (length ns) :: rs).
    cbn [per_measure_results timeline]. rewrite Hm.
    rewrite (notes_of_stored h m ns Hns).
    unfold bind at 1.
    rewrite (generate_notes_run h r m ns running Hm Hns).
    unfold bind at 1.
    rewrite (total_time_run _ r m) by exact Hm.
    unfold bind, ret. rewrite Hrun. rewrite <- app_assoc.
    split; [reflexivity|].
    cbn [concat]. rewrite Hcat.
    rewrite !length_app, length_map. by rewrite seq_app.
Qed.

Lemma track_generate_notes_run `{Timing} (t : Track) (h : Heap) :
  track_ok h (measures t) ->
  Track.generate_notes t h
  = Some (seq (length (note_objs h))
              (length (timeline h (measures t) Duration_zero)),
          mkHeap _ (note_objs h ++ timeline h (measures t) Duration_zero)
                 (measure_objs h)).
Proof.
  intros Hok.
  destruct (per_measure_results_run (measures t) Duration_zero h Hok)
    as (rs & Hrun & Hcat).
  unfold Track.generate_notes. rewrite loop_concat.
  unfold bind, ret. rewrite Hrun. simpl. by rewrite Hcat.
Qed.

(** X7: realising a track of live measures never touches what is already
    on the heap: every measure object and every existing note object is as
    before.  It allocates exactly one new note object per stored note of
    each measure occurrence and returns their references, all new and
    pairwise different, in allocation order. *)
Theorem track_realisation_frame `{Timing} (t : Track) (h : Heap) :
  track_ok h (measures t) ->
  exists out h',
    Track.generate_notes t h = Some (out, h')
    /\ out = seq (length (note_objs h)) (note_count h (measures t))
    /\ NoDup out
    /\ Forall (fun q => note_objs h !! q = None) out
    /\ length (note_objs h')
       = length (note_objs h) + note_count h (measures t)
    /\ (forall p n, note_objs h !! p = Some n -> note_objs h' !! p = Some n)
    /\ measure_objs h' = measure_objs h.
Proof.
  intros Hok. eexists _, _.
  split; [by apply track_generate_notes_run|].
  rewrite (timeline_length h (measures t) Duration_zero Hok).
  split; [reflexivity|]. split; [apply NoDup_seq|]. split.
  { apply Forall_forall. intros q Hq. apply elem_of_seq in Hq.
    apply lookup_ge_None_2. lia. }
  cbn [note_objs measure_objs].
  split; [by rewrite length_app, (timeline_length h _ _ Hok)|].
  split; [|reflexivity]. intros p n Hp. by apply lookup_app_l_Some.
Qed.

Lemma track_realisation_frame_witness :
  track_ok one_bar_heap [0; 0; 0]
  /\ exists h',
       Track.generate_notes (H := SpecTiming.timing) (mkTrack [0; 0; 0])
                            one_bar_heap = Some ([1; 2; 3], h').
Proof.
  assert (Hok : track_ok one_bar_heap [0; 0; 0]).
  { assert (Hm : exists m, measure_objs one_bar_heap !! 0 = Some m
                           /\ measure_ok one_bar_heap m).
    { exists common_time_bar. split; [reflexivity|].
      constructor; [simpl; lia | constructor]. }
    repeat constructor; exact Hm. }
  split; [exact Hok|].
  destruct (track_realisation_frame (mkTrack [0; 0; 0]) one_bar_heap Hok)
    as (out & h' & Hrun & Hout & _).
  exists h'. rewrite Hrun, Hout. reflexivity.
Defined.

(** X8: the events a track of live measures produces are its timeline: in
    measure order, each measure's stored notes in stored order, with the
    note, duration and velocity of the stored note and its offset increased
    by [Duration(0)] plus the total times of all measures before it; the
    returned references point to exactly these objects. *)
Theorem track_realisation_timeline `{Timing} (t : Track) (h : Heap) :
  track_ok h (measures t) ->
  exists out h',
    Track.generate_notes t h = Some (out, h')
    /\ stored h' out (timeline h (measures t) Duration_zero)
    /\ note_objs h' = note_objs h ++ timeline h (measures t) Duration_zero.
Proof.
  intros Hok. eexists _, _.
  split; [by apply track_generate_notes_run|].
  split; [|reflexivity].
  pose proof (stored_fresh (note_objs h)
                (timeline h (measures t) Duration_zero) [] (measure_objs h))
    as Hf.
  by rewrite app_nil_r in Hf.
Qed.

Lemma track_realisation_timeline_witness :
  track_ok one_bar_heap [0; 0]
  /\ exists out h',
       Track.generate_notes (H := SpecTiming.timing) (mkTrack [0; 0])
                            one_bar_heap = Some (out, h')
       /\ (offset <$> note_objs h') = [0%Q; 0%Q; 2%Q].
Proof.
  assert (Hok : track_ok one_bar_heap [0; 0]).
  { assert (Hm : exists m, measure_objs one_bar_heap !! 0 = Some m
                           /\ measure_ok one_bar_heap m).
    { exists common_time_bar. split; [reflexivity|].
      constructor; [simpl; lia | constructor]. }
    repeat constructor; exact Hm. }
  split; [exact Hok|].
  destruct (track_realisation_timeline (mkTrack [0; 0]) one_bar_heap Hok)
    as (out & h' & Hrun & _ & Hnotes).
  exists out, h'. split; [exact Hrun|]. rewrite Hnotes. reflexivity.
Defined.

(** X9: for a track built from a list of live measures, realisation can
    be repeated: a second [generate_notes()] on the same track succeeds
    too, returns references disjoint from those of the first call, and its
    events have the same notes, offsets, durations and velocities as the
    first call's, which are in place after the first call and still in
    place after the second. *)
Theorem track_realisation_repeatable `{Timing} (t : Track) (h : Heap) :
  track_ok h (measures t) ->
  exists out1 out2 h1 h2 events,
    Track.generate_notes t h = Some (out1, h1)
    /\ Track.generate_notes t h1 = Some (out2, h2)
    /\ stored h1 out1 events
    /\ stored h2 out1 events /\ stored h2 out2 events
    /\ (forall q, q ∈ out1 -> q ∉ out2).
Proof.
  intros Hok.
  pose (events := timeline h (measures t) Duration_zero).
  pose (h1 := mkHeap _ (note_objs h ++ events) (measure_objs h)).
  pose proof (track_generate_notes_run t h Hok) as Hrun1.
  pose proof (track_generate_notes_run t h1
                (track_ok_extend h (measures t) events Hok)) as Hrun2.
  assert (Htl : timeline h1 (measures t) Duration_zero = events)
    by apply (timeline_extend h events (measures t) Duration_zero Hok).
  rewrite Htl in Hrun2. fold events in Hrun1. fold h1 in Hrun1.
  eexists _, _, h1, _, events.
  split; [exact Hrun1|]. split; [exact Hrun2|].
  cbn [h1 note_objs measure_objs]. split; [|split; [|split]].
  - pose proof (stored_fresh (note_objs h) events [] (measure_objs h)) as Hf.
    by rewrite app_nil_r in Hf.
  - rewrite <- app_assoc. apply stored_fresh.
  - pose proof (stored_fresh (note_objs h ++ events) events []
                  (measure_objs h)) as Hf.
    by rewrite app_nil_r in Hf.
  - intros q Hq1 Hq2. apply elem_of_seq in Hq1, Hq2.
    rewrite length_app in Hq2. lia.
Qed.

Lemma track_realisation_repeatable_witness :
  track_ok one_bar_heap [0; 0]
  /\ exists out1 out2 h1 h2,
       Track.generate_notes (H := SpecTiming.timing) (mkTrack [0; 0])
                            one_bar_heap = Some (out1, h1)
       /\ Track.generate_notes (mkTrack [0; 0]) h1 = Some (out2, h2).
Proof.
  assert (Hok : track_ok one_bar_heap [0; 0]).
  { assert (Hm : exists m, measure_objs one_bar_heap !! 0 = Some m
                           /\ measure_ok one_bar_heap m).
    { exists common_time_bar. split; [reflexivity|].
      constructor; [simpl; lia | constructor]. }
    repeat constructor; exact Hm. }
  split; [exact Hok|].
  destruct (track_realisation_repeatable (mkTrack [0; 0]) one_bar_heap Hok)
    as (out1 & out2 & h1 & h2 & events & Hrun1 & Hrun2 & _).
  exists out1, out2, h1, h2. split; [exact Hrun1 | exact Hrun2].
Defined.

(** ** Further properties of [Measure] *)

Lemma init_run `{Timing} (tp : Tempo) (sg : Signature) (h : Heap) :
  Measure.__init__ tp sg h
  = Some (length (measure_objs h),
          mkHeap _ (note_objs h) (measure_objs h ++ [mkMeasure _ tp sg []])).
Proof. reflexivity. Qed.

Lemma insert_last {A} (l : list A) (x y : A) :
  <[length l := y]> (l ++ [x]) = l ++ [y].
Proof.
  replace (length l) with (length l + 0) by lia. by rewrite insert_app_r.
Qed.

(** [add_note] on the measure allocated last. *)
Lemma add_note_last `{Timing} (l : list PositionedNote) (ms : list Measure)
    (m : Measure) (pitch : Note) (position dur : Scalar)
    (vel : option Scalar) :
  Measure.add_note (length ms) pitch position dur vel (mkHeap _ l (ms ++ [m]))
  = Some (length ms,
          mkHeap _ (l ++ [placed (tempo m) (pitch, position, dur, vel)])
                 (ms ++ [mkMeasure _ (tempo m) (signature m)
                                   (notes m ++ [length l])])).
Proof.
  rewrite (add_note_run _ (length ms) m) by (by apply list_lookup_middle).
  simpl. by rewrite insert_last.
Qed.

(** X10: two measures made by [Measure(...)] are different objects, new to
    the heap, each with its own empty note list: a note added to the first
    does not show in the second, whose [generate_notes] still returns the
    empty list; measures that existed before are unchanged. *)
Theorem fresh_measures_independent `{Timing} (h : Heap) (tp1 tp2 : Tempo)
    (sg1 sg2 : Signature) (pitch : Note) (position dur : Scalar)
    (vel : option Scalar) (base_offset : Duration) :
  exists a b h',
    (let* a := Measure.__init__ tp1 sg1 in
     let* b := Measure.__init__ tp2 sg2 in
     let* _ := Measure.add_note a pitch position dur vel in
     let* out := Measure.generate_notes b base_offset in
     ret (a, b, out)) h = Some ((a, b, []), h')
    /\ a <> b
    /\ measure_objs h !! a = None /\ measure_objs h !! b = None
    /\ measure_objs h' !! a
       = Some (mkMeasure _ tp1 sg1 [length (note_objs h)])
    /\ measure_objs h' !! b = Some (mkMeasure _ tp2 sg2 [])
    /\ (forall r m, measure_objs h !! r = Some m ->
                    measure_objs h' !! r = Some m).
Proof.
  set (ms := measure_objs h).
  set (m1 := mkMeasure _ tp1 sg1 []). set (m2 := mkMeasure _ tp2 sg2 []).
  assert (Ha : ((ms ++ [m1]) ++ [m2]) !! length ms = Some m1)
    by (by apply lookup_app_l_Some, list_lookup_middle).
  assert (Hb : ((ms ++ [m1]) ++ [m2]) !! length (ms ++ [m1]) = Some m2)
    by (by apply list_lookup_middle).
  assert (Hab : length ms <> length (ms ++ [m1]))
    by (rewrite length_app; simpl; lia).
  exists (length ms), (length (ms ++ [m1])). eexists. split.
  { unfold bind at 1. rewrite init_run. fold ms m1.
    unfold bind at 1. rewrite init_run. cbn [measure_objs note_objs]. fold m2.
    unfold bind at 1.
    rewrite (add_note_run _ (length ms) m1) by exact Ha.
    unfold bind at 1.
    rewrite (generate_notes_run _ _ m2 []);
      [ | cbn [measure_objs]; by rewrite list_lookup_insert_ne
        | constructor ].
    unfold ret. cbn [length seq map note_objs measure_objs m1 tempo signature notes app].
    rewrite app_nil_r. reflexivity. }
  split; [exact Hab|].
  split; [by apply lookup_ge_None_2|].
  split; [apply lookup_ge_None_2; rewrite length_app; simpl; lia|].
  cbn [measure_objs].
  split; [apply list_lookup_insert_eq; rewrite !length_app; simpl; lia|].
  split; [by rewrite list_lookup_insert_ne|].
  intros r m Hr. pose proof (lookup_lt_Some _ _ _ Hr) as Hlt. fold ms in Hlt.
  rewrite list_lookup_insert_ne by lia.
  by apply lookup_app_l_Some, lookup_app_l_Some.
Qed.

Lemma all_stored_insert `{Timing} (ms : list Measure) (r : ref) (m : Measure)
    (q : ref) :
  ms !! r = Some m ->
  concat (map notes (<[r := mkMeasure _ (tempo m) (signature m)
                                      (notes m ++ [q])]> ms))
  ≡ₚ q :: concat (map notes ms).
Proof.
  intros Hr. pose proof (lookup_lt_Some _ _ _ Hr) as Hlt.
  rewrite insert_take_drop by exact Hlt.
  rewrite <- (take_drop_middle ms r m Hr) at 3.
  rewrite !map_app, !concat_app. cbn [map concat notes].
  rewrite <- !app_assoc. cbn [app].
  rewrite (app_assoc (concat (map notes (take r ms)))).
  rewrite (app_assoc (concat (map notes (take r ms))) (notes m)
                     (concat (map notes (drop (S r) ms)))).
  symmetry. apply Permutation_middle.
Qed.

(** X11: the builders keep stored notes unshared.  On a heap where no note
    object is held twice by the measures and every held reference is live,
    [Measure(...)], [add_note] on a live measure and [generate_notes] on a
    live measure all succeed and leave a heap with the same property. *)
Theorem builders_keep_notes_unshared `{Timing} (h : Heap) :
  notes_unshared h ->
  (forall tp sg, exists r h',
     Measure.__init__ tp sg h = Some (r, h') /\ notes_unshared h')
  /\ (forall r m pitch position dur vel,
        measure_objs h !! r = Some m ->
        exists h',
          Measure.add_note r pitch position dur vel h = Some (r, h')
          /\ notes_unshared h')
  /\ (forall r m base_offset,
        measure_objs h !! r = Some m ->
        exists out h',
          Measure.generate_notes r base_offset h = Some (out, h')
          /\ notes_unshared h').
Proof.
  intros [Hnd Hlive]. split; [|split].
  - intros tp sg. eexists _, _. split; [apply init_run|].
    unfold notes_unshared, all_stored in *. cbn [measure_objs note_objs].
    rewrite map_app, concat_app. cbn [map concat notes].
    by rewrite !app_nil_r.
  - intros r m pitch position dur vel Hm. eexists.
    split; [by apply add_note_run|].
    unfold notes_unshared, all_stored in *. cbn [measure_objs note_objs].
    pose proof (all_stored_insert (measure_objs h) r m
                  (length (note_objs h)) Hm) as Hperm.
    split.
    + rewrite Hperm. apply NoDup_cons. split; [|exact Hnd].
      intros Hin. rewrite Forall_forall in Hlive.
      specialize (Hlive _ Hin). lia.
    + rewrite Hperm. constructor; [rewrite length_app; simpl; lia|].
      eapply Forall_impl; [exact Hlive|]. intros p Hp.
      rewrite length_app. simpl in *. lia.
  - intros r m base_offset Hm.
    assert (Hok : measure_ok h m).
    { unfold measure_ok. rewrite Forall_forall in Hlive |- *.
      intros p Hp. apply Hlive. unfold all_stored.
      apply list_elem_of_In, in_concat. exists (notes m).
      split; [|by apply list_elem_of_In].
      apply in_map, list_elem_of_In. by eapply list_elem_of_lookup_2. }
    destruct (measure_ok_stored h m Hok) as [ns Hns].
    eexists _, _. split; [by eapply generate_notes_run|].
    unfold notes_unshared, all_stored in *. cbn [measure_objs note_objs].
    split; [exact Hnd|].
    eapply Forall_impl; [exact Hlive|]. intros p Hp.
    rewrite length_app. simpl in *. lia.
Qed.

Lemma builders_keep_notes_unshared_witness :
  notes_unshared one_bar_heap
  /\ exists h',
       Measure.add_note (H := SpecTiming.timing) 0 (mkNote "G" 3) 1%Q 1%Q None
                        one_bar_heap = Some (0, h')
       /\ notes_unshared h'.
Proof.
  assert (Hu : notes_unshared one_bar_heap).
  { split.
    - apply NoDup_cons. split; [apply not_elem_of_nil | apply NoDup_nil_2].
    - constructor; [simpl; lia | constructor]. }
  split; [exact Hu|].
  destruct (builders_keep_notes_unshared one_bar_heap Hu) as (_ & Hadd & _).
  exact (Hadd 0 common_time_bar (mkNote "G" 3) 1%Q 1%Q None eq_refl).
Defined.

(** ** Display methods *)

Lemma string_app_assoc (a b c : string) : (a +:+ b) +:+ c = a +:+ (b +:+ c).
Proof.
  induction a as [|x a IH]; [reflexivity|].
  change (String x ((a +:+ b) +:+ c) = String x (a +:+ (b +:+ c))).
  by f_equal.
Qed.

Lemma string_app_nil_r (a : string) : a +:+ EmptyString = a.
Proof.
  induction a as [|x a IH]; [reflexivity|].
  change (String x (a +:+ EmptyString) = String x a). by f_equal.
Qed.

Lemma repr_run `{Display} (h : Heap) (p : ref) (n : PositionedNote) :
  note_objs h !! p = Some n ->
  PositionedNote_repr p h = Some (repr_of n, h).
Proof.
  intros Hp. unfold PositionedNote_repr, bind, get_note, ret. by rewrite Hp.
Qed.

Lemma str_summary_loop_run `{Display} (h : Heap) (ps : list ref)
    (ns : list PositionedNote) :
  stored h ps ns ->
  forall result,
    str_summary_loop ps result h = Some (result +:+ note_lines ns, h).
Proof.
  unfold stored. induction 1 as [|p n ps ns Hp _ IH]; intros result.
  - simpl. unfold ret. by rewrite string_app_nil_r.
  - cbn [str_summary_loop note_lines]. unfold bind.
    rewrite (repr_run h p n Hp). rewrite IH.
    by rewrite string_app_assoc.
Qed.

(** X12: [str_summary()] of a live measure reads the heap without changing
    it and returns the header [<signature>: (@<tempo>):] followed by one
    line per stored note, in stored order, each line being a line feed and
    then the note's [__repr__] text [<note> at <offset> for <duration>]. *)
Theorem str_summary_lines `{Display} (h : Heap) (r : ref) (m : Measure)
    (ns : list PositionedNote) :
  measure_objs h !! r = Some m ->
  stored h (notes m) ns ->
  Measure_str_summary r h
  = Some ((Signature_str (signature m) +:+ ": (@" +:+ Tempo_str (tempo m)
           +:+ "):") +:+ note_lines ns, h)
  /\ Forall2 (fun p n => PositionedNote_repr p h
                         = Some (Note_str (note n) +:+ " at "
                                 +:+ Duration_str (offset n) +:+ " for "
                                 +:+ Duration_str (duration n), h))
             (notes m) ns.
Proof.
  intros Hm Hns. split.
  - unfold Measure_str_summary, bind at 1, get_measure. rewrite Hm.
    by apply str_summary_loop_run.
  - eapply Forall2_impl; [exact Hns|]. intros p n Hp. by apply repr_run.
Qed.

(** X13: [__repr__] of a measure built by [Measure(tempo, signature)] and a
    chain of [add_note] calls reports the number of calls made:
    [<signature> at <tempo> with <k> notes], [k] in decimal. *)
Theorem measure_repr_counts_notes `{Display} (h : Heap) (tp : Tempo)
    (sg : Signature) (calls : list call) :
  exists h',
    (let* r := Measure.__init__ tp sg in
     let* r := add_notes r calls in
     Measure_repr r) h
    = Some (Signature_str sg +:+ " at " +:+ Tempo_str tp +:+ " with "
            +:+ pretty (length calls) +:+ " notes", h').
Proof.
  eexists. unfold bind at 1. rewrite init_run. unfold bind at 1.
  rewrite (add_notes_run calls _ (length (measure_objs h))
                         (mkMeasure _ tp sg []))
    by (simpl; by apply list_lookup_middle).
  unfold Measure_repr, bind, get_measure, ret. cbn [measure_objs].
  rewrite list_lookup_insert_eq by (rewrite length_app; simpl; lia).
  cbn [tempo signature notes app]. by rewrite length_seq.
Qed.

Lemma str_summary_lines_witness :
  (measure_objs one_bar_heap !! 0 = Some common_time_bar
   /\ stored one_bar_heap (notes common_time_bar) [c3_on_beat_0])
  /\ Measure_str_summary 0 one_bar_heap
     = Some ("4/1 over 4/1: (@120/1):" +:+ newline +:+ "C3 at 0/1 for 1/2",
             one_bar_heap).
Proof.
  assert (Hns : stored one_bar_heap (notes common_time_bar) [c3_on_beat_0]).
  { constructor; [reflexivity | constructor]. }
  split; [split; [reflexivity | exact Hns]|].
  destruct (str_summary_lines one_bar_heap 0 common_time_bar [c3_on_beat_0]
              eq_refl Hns) as [Hrun _].
  rewrite Hrun. reflexivity.
Defined.

(** ** [songs.py] *)

Ltac run_builder_step :=
  unfold bind at 1;
  first [ rewrite init_run | rewrite add_note_last ];
  cbn [note_objs measure_objs tempo signature notes].

Lemma vader_jacob_run (h : Heap) :
  vader_jacob h
  = Some (mkTrack [ length (measure_objs h); length (measure_objs h);
                    1 + length (measure_objs h); 1 + length (measure_objs h);
                    2 + length (measure_objs h); 2 + length (measure_objs h);
                    3 + length (measure_objs h); 3 + length (measure_objs h) ],
          mkHeap _
            (note_objs h ++ theme_notes theme1_calls ++ theme_notes theme2_calls
             ++ theme_notes theme3_calls ++ theme_notes theme4_calls)
            (measure_objs h
             ++ [ theme_measure (length (note_objs h)) 4;
                  theme_measure (4 + length (note_objs h)) 3;
                  theme_measure (7 + length (note_objs h)) 6;
                  theme_measure (13 + length (note_objs h)) 3 ])).
Proof.
  unfold vader_jacob.
  do 20 run_builder_step.
  unfold ret. rewrite !length_app. cbn [length replicate app].
  rewrite !Nat.add_1_r, <- !app_assoc. reflexivity.
Qed.

Lemma stored_slice `{Timing} (l pre ns post : list PositionedNote)
    (ms : list Measure) (k n : nat) :
  k = length pre -> n = length ns ->
  stored (mkHeap _ (l ++ pre ++ ns ++ post) ms) (seq (k + length l) n) ns.
Proof.
  intros -> ->.
  pose proof (stored_fresh (l ++ pre) ns post ms) as Hf.
  rewrite length_app, <- app_assoc in Hf. by rewrite Nat.add_comm.
Qed.

Lemma lookup_appended {A} (l xs : list A) (i : nat) :
  (l ++ xs) !! (i + length l) = xs !! i.
Proof. rewrite lookup_app_r by lia. f_equal. lia. Qed.

Lemma timeline_cons `{Timing} (h : Heap) (r : ref) (rest : list ref)
    (m : Measure) (ns : list PositionedNote) (running : Duration) :
  measure_objs h !! r = Some m ->
  stored h (notes m) ns ->
  timeline h (r :: rest) running
  = map (shifted running) ns
    ++ timeline h rest (Duration_add running (total_time_of m)).
Proof.
  intros Hm Hns. cbn [timeline]. rewrite Hm.
  by rewrite (notes_of_stored h m ns Hns).
Qed.

(** X14: called on any heap, [vader_jacob()] succeeds and builds its track
    out of new objects only: each of its 8 measure references was not live
    before and points to a measure whose notes were not live before, and
    every object that was on the heap is unchanged.  Realising that track
    yields 32 new events that form one gapless line: the first begins at 0,
    each next one begins at the moment of release of the one before, and
    the last is released at 16 seconds.  Again every object that was on
    the heap before is unchanged. *)
Theorem vader_jacob_gapless (h : Heap) :
  exists t h1 out h2 events,
    vader_jacob h = Some (t, h1)
    /\ length (measures t) = 8
    /\ Forall (fun r =>
                 measure_objs h !! r = None
                 /\ exists m, measure_objs h1 !! r = Some m
                      /\ Forall (fun p => note_objs h !! p = None
                                          /\ is_Some (note_objs h1 !! p))
                                (notes m))
              (measures t)
    /\ (forall p n, note_objs h !! p = Some n -> note_objs h1 !! p = Some n)
    /\ (forall r m, measure_objs h !! r = Some m ->
                    measure_objs h1 !! r = Some m)
    /\ Track.generate_notes t h1 = Some (out, h2)
    /\ Forall (fun q => note_objs h1 !! q = None) out
    /\ stored h2 out events
    /\ length events = 32
    /\ gapless 0%Q events 16%Q
    /\ (forall p n, note_objs h !! p = Some n -> note_objs h2 !! p = Some n)
    /\ (forall r m, measure_objs h !! r = Some m ->
                    measure_objs h2 !! r = Some m).
Proof.
  pose proof (vader_jacob_run h) as Hrun.
  set (l := note_objs h) in *. set (ms := measure_objs h) in *.
  set (n1 := theme_notes theme1_calls) in *.
  set (n2 := theme_notes theme2_calls) in *.
  set (n3 := theme_notes theme3_calls) in *.
  set (n4 := theme_notes theme4_calls) in *.
  set (bars := [ theme_measure (length l) 4; theme_measure (4 + length l) 3;
                 theme_measure (7 + length l) 6;
                 theme_measure (13 + length l) 3 ]) in *.
  set (h1 := mkHeap _ (l ++ n1 ++ n2 ++ n3 ++ n4) (ms ++ bars)) in *.
  set (t := mkTrack _) in Hrun.
  assert (Hm1 : measure_objs h1 !! length ms = Some (theme_measure (length l) 4))
    by apply (lookup_appended ms bars 0).
  assert (Hm2 : measure_objs h1 !! (1 + length ms)
                = Some (theme_measure (4 + length l) 3))
    by apply (lookup_appended ms bars 1).
  assert (Hm3 : measure_objs h1 !! (2 + length ms)
                = Some (theme_measure (7 + length l) 6))
    by apply (lookup_appended ms bars 2).
  assert (Hm4 : measure_objs h1 !! (3 + length ms)
                = Some (theme_measure (13 + length l) 3))
    by apply (lookup_appended ms bars 3).
  assert (Hs1 : stored h1 (notes (theme_measure (length l) 4)) n1)
    by (apply (stored_slice l [] n1 (n2 ++ n3 ++ n4) _ 0 4); reflexivity).
  assert (Hs2 : stored h1 (notes (theme_measure (4 + length l) 3)) n2)
    by (apply (stored_slice l n1 n2 (n3 ++ n4) _ 4 3); reflexivity).
  assert (Hs3 : stored h1 (notes (theme_measure (7 + length l) 6)) n3).
  { pose proof (stored_slice l (n1 ++ n2) n3 n4 (ms ++ bars) 7 6
                  eq_refl eq_refl) as Hs.
    by rewrite <- app_assoc in Hs. }
  assert (Hs4 : stored h1 (notes (theme_measure (13 + length l) 3)) n4).
  { pose proof (stored_slice l (n1 ++ n2 ++ n3) n4 [] (ms ++ bars) 13 3
                  eq_refl eq_refl) as Hs.
    rewrite app_nil_r, <- !app_assoc in Hs. exact Hs. }
  assert (Hok : track_ok h1 (measures t)).
  { unfold t. cbn [measures].
    repeat first
      [ apply Forall_nil_2
      | apply Forall_cons; split;
        [ eexists; split;
          [ first [exact Hm1 | exact Hm2 | exact Hm3 | exact Hm4]
          | eapply stored_measure_ok;
            first [exact Hs1 | exact Hs2 | exact Hs3 | exact Hs4] ]
        | ] ]. }
  pose proof (track_generate_notes_run t h1 Hok) as Hgen.
  set (events := timeline h1 (measures t) Duration_zero) in *.
  assert (Hev : events
                = map (shifted 0%Q) n1 ++ map (shifted 2%Q) n1
                  ++ map (shifted 4%Q) n2 ++ map (shifted 6%Q) n2
                  ++ map (shifted 8%Q) n3 ++ map (shifted 10%Q) n3
                  ++ map (shifted 12%Q) n4 ++ map (shifted 14%Q) n4).
  { unfold events, t. cbn [measures].
    rewrite (timeline_cons h1 _ _ _ n1 _ Hm1 Hs1).
    rewrite (timeline_cons h1 _ _ _ n1 _ Hm1 Hs1).
    rewrite (timeline_cons h1 _ _ _ n2 _ Hm2 Hs2).
    rewrite (timeline_cons h1 _ _ _ n2 _ Hm2 Hs2).
    rewrite (timeline_cons h1 _ _ _ n3 _ Hm3 Hs3).
    rewrite (timeline_cons h1 _ _ _ n3 _ Hm3 Hs3).
    rewrite (timeline_cons h1 _ _ _ n4 _ Hm4 Hs4).
    rewrite (timeline_cons h1 _ _ _ n4 _ Hm4 Hs4).
    cbn [timeline]. rewrite app_nil_r. reflexivity. }
  assert (Hnew : forall k n,
             k + n <= 16 ->
             Forall (fun p => note_objs h !! p = None
                              /\ is_Some (note_objs h1 !! p))
                    (notes (theme_measure (k + length l) n))).
  { intros k n Hkn. cbn [notes theme_measure]. apply Forall_forall.
    intros p Hp. apply elem_of_seq in Hp. split.
    - apply lookup_ge_None_2. fold l. lia.
    - apply lookup_lt_is_Some_2. cbn [note_objs h1].
      rewrite length_app. change (length (n1 ++ n2 ++ n3 ++ n4)) with 16. lia. }
  eexists t, h1, _, _, events.
  split; [exact Hrun|]. split; [reflexivity|].
  split.
  { unfold t. cbn [measures].
    repeat first
      [ apply Forall_nil_2
      | apply Forall_cons; split;
        [ split;
          [ apply lookup_ge_None_2; fold ms; lia
          | eexists; split;
            [ first [exact Hm1 | exact Hm2 | exact Hm3 | exact Hm4]
            | first [ apply (Hnew 0 4) | apply (Hnew 4 3)
                    | apply (Hnew 7 6) | apply (Hnew 13 3) ]; lia ] ]
        | ] ]. }
  split.
  { intros p n Hp. cbn [note_objs h1]. by apply lookup_app_l_Some. }
  split.
  { intros r m Hr. cbn [measure_objs h1]. by apply lookup_app_l_Some. }
  split; [exact Hgen|].
  split.
  { apply Forall_forall. intros q Hq. apply elem_of_seq in Hq.
    apply lookup_ge_None_2. lia. }
  split.
  { pose proof (stored_fresh (note_objs h1) events [] (measure_objs h1)) as Hf.
    by rewrite app_nil_r in Hf. }
  split; [rewrite Hev; reflexivity|].
  split; [rewrite Hev; vm_compute; repeat split|].
  cbn [note_objs measure_objs h1]. split.
  - intros p n Hp. by apply lookup_app_l_Some, lookup_app_l_Some.
  - intros r m Hr. by apply lookup_app_l_Some.
Qed.

(** ** Notes and the length of a bar *)

(** X15: adding notes never changes how long a measure lasts: after any
    chain of [add_note] calls on a live measure, wherever the notes are
    placed, [total_time()] returns what it returned before. *)
Theorem add_note_keeps_total_time `{Timing} (h : Heap) (r : ref) (m : Measure)
    (calls : list call) :
  measure_objs h !! r = Some m ->
  exists before h',
    Measure.total_time r h = Some (before, h)
    /\ (let* r := add_notes r calls in Measure.total_time r) h
       = Some (before, h').
Proof.
  intros Hm. exists (total_time_of m). eexists.
  split; [by apply total_time_run|].
  unfold bind. rewrite (add_notes_run calls h r m Hm).
  rewrite (total_time_run _ r
             (mkMeasure _ (tempo m) (signature m)
                (notes m ++ seq (length (note_objs h)) (length calls))));
    [reflexivity|].
  cbn [measure_objs]. apply list_lookup_insert_eq. by eapply lookup_lt_Some.
Qed.

Lemma add_note_keeps_total_time_witness :
  measure_objs one_bar_heap !! 0 = Some common_time_bar
  /\ exists h',
       (let* r := add_notes (H := SpecTiming.timing) 0
                            [(mkNote "G" 3, 9%Q, 1%Q, None)] in
        Measure.total_time r) one_bar_heap = Some (2%Q, h').
Proof.
  split; [reflexivity|].
  destruct (add_note_keeps_total_time one_bar_heap 0 common_time_bar
              [(mkNote "G" 3, 9%Q, 1%Q, None)] eq_refl)
    as (before & h' & Hbefore & Hafter).
  exists h'. injection Hbefore as <-. exact Hafter.
Defined.

Lemma timeline_app `{Timing} (h : Heap) (ms1 ms2 : list ref) :
  forall running,
  track_ok h ms1 ->
  exists running',
    timeline h (ms1 ++ ms2) running
    = timeline h ms1 running ++ timeline h ms2 running'.
Proof.
  induction ms1 as [|r ms1 IH]; intros running Hok.
  - by exists running.
  - apply Forall_cons in Hok as [(m & Hm & _) Hrest].
    destruct (IH (Duration_add running (total_time_of m)) Hrest)
      as [running' Heq].
    exists running'. cbn [app timeline]. rewrite Hm, Heq.
    by rewrite app_assoc.
Qed.

(** X16: measures appended to a track do not move what comes before them:
    the events of the track [ms1 ++ ms2] begin with exactly the events of
    the track [ms1] (same notes, offsets, durations and velocities, in the
    same order), and the references returned for [ms1] are the first ones
    returned for [ms1 ++ ms2] when both are realised on the same heap. *)
Theorem track_prefix_stable `{Timing} (h : Heap) (ms1 ms2 : list ref) :
  track_ok h (ms1 ++ ms2) ->
  exists out1 h1 out h' events1 events2 more,
    Track.generate_notes (mkTrack ms1) h = Some (out1, h1)
    /\ Track.generate_notes (mkTrack (ms1 ++ ms2)) h = Some (out, h')
    /\ note_objs h1 = note_objs h ++ events1
    /\ note_objs h' = note_objs h ++ events1 ++ events2
    /\ out = out1 ++ more
    /\ stored h1 out1 events1
    /\ stored h' out1 events1.
Proof.
  intros Hok. pose proof Hok as Hok12.
  apply Forall_app in Hok as [Hok1 Hok2].
  destruct (timeline_app h ms1 ms2 Duration_zero Hok1) as [running' Heq].
  pose proof (track_generate_notes_run (mkTrack ms1) h Hok1) as Hrun1.
  pose proof (track_generate_notes_run (mkTrack (ms1 ++ ms2)) h Hok12) as Hrun.
  cbn [measures] in Hrun1, Hrun. rewrite Heq in Hrun.
  rewrite length_app, seq_app in Hrun.
  eexists _, _, _, _, (timeline h ms1 Duration_zero),
          (timeline h ms2 running'), _.
  split; [exact Hrun1|]. split; [exact Hrun|].
  cbn [note_objs]. split; [reflexivity|]. split; [reflexivity|].
  split; [reflexivity|]. split.
  - pose proof (stored_fresh (note_objs h) (timeline h ms1 Duration_zero) []
                  (measure_objs h)) as Hf.
    by rewrite app_nil_r in Hf.
  - apply stored_fresh.
Qed.

Lemma track_prefix_stable_witness :
  track_ok one_bar_heap ([0] ++ [0; 0])
  /\ exists out1 h1 out h',
       Track.generate_notes (H := SpecTiming.timing) (mkTrack [0]) one_bar_heap
       = Some (out1, h1)
       /\ Track.generate_notes (mkTrack ([0] ++ [0; 0])) one_bar_heap
          = Some (out, h').
Proof.
  assert (Hok : track_ok one_bar_heap ([0] ++ [0; 0])).
  { assert (Hm : exists m, measure_objs one_bar_heap !! 0 = Some m
                           /\ measure_ok one_bar_heap m).
    { exists common_time_bar. split; [reflexivity|].
      constructor; [simpl; lia | constructor]. }
    repeat constructor; exact Hm. }
  split; [exact Hok|].
  destruct (track_prefix_stable one_bar_heap [0] [0; 0] Hok)
    as (out1 & h1 & out & h' & ev1 & ev2 & more & Hrun1 & Hrun & _).
  exists out1, h1, out, h'. split; [exact Hrun1 | exact Hrun].
Defined.
